(** * Energy-consumption load analyzer: a shallow embedding of
    [powerconsumption.py] and the properties of its analysis pipeline.

    Numeric model.  The script works on pandas columns of float64.  A reading
    stored in the frame is modelled as a real number (exact arithmetic: the
    rounding of float64, overflow and the sign of zero are abstracted away);
    a value computed by the script is a [float], which adds the three special
    values of IEEE 754 that numpy produces instead of raising: [NaN], [PInf]
    and [NInf].  Timestamps are [datetime64[ns]] instants, modelled as the
    number of nanoseconds since the epoch.  Plotting calls ([plt.*],
    [Series.plot]) draw on a display and do not change any Python value; they
    are left out. *)

From Stdlib Require Import String Reals Lra Lia ZArith Bool List Sorted Permutation.
Import ListNotations.

Local Open Scope string_scope.
Local Open Scope list_scope.
Local Open Scope R_scope.

(** ** float64 values: reals extended with the IEEE special values *)

Inductive float : Type :=
| Fin (r : R)
| PInf
| NInf
| NaN.

Definition fopp (a : float) : float :=
  match a with
  | Fin r => Fin (- r)
  | PInf => NInf
  | NInf => PInf
  | NaN => NaN
  end.

Definition fadd (a b : float) : float :=
  match a, b with
  | NaN, _ | _, NaN => NaN
  | PInf, NInf | NInf, PInf => NaN
  | PInf, _ | _, PInf => PInf
  | NInf, _ | _, NInf => NInf
  | Fin x, Fin y => Fin (x + y)
  end.

Definition fsub (a b : float) : float := fadd a (fopp b).

(** The sign of a real, as numpy's special-value rules consult it. *)
Inductive sign : Type := Neg | Zero | Pos.

Definition Rsign (r : R) : sign :=
  match total_order_T r 0 with
  | inleft (left _) => Neg
  | inleft (right _) => Zero
  | inright _ => Pos
  end.

Definition finf (s : sign) : float :=
  match s with
  | Neg => NInf
  | Zero => NaN
  | Pos => PInf
  end.

Definition sign_opp (s : sign) : sign :=
  match s with
  | Neg => Pos
  | Zero => Zero
  | Pos => Neg
  end.

Definition fmul (a b : float) : float :=
  match a, b with
  | NaN, _ | _, NaN => NaN
  | Fin x, Fin y => Fin (x * y)
  | PInf, Fin y | Fin y, PInf => finf (Rsign y)
  | NInf, Fin y | Fin y, NInf => finf (sign_opp (Rsign y))
  | PInf, PInf | NInf, NInf => PInf
  | PInf, NInf | NInf, PInf => NInf
  end.

(** numpy division: a finite value over zero gives an infinity of the sign of
    the numerator, zero over zero gives [NaN]; nothing is raised. *)
Definition fdiv (a b : float) : float :=
  match a, b with
  | NaN, _ | _, NaN => NaN
  | Fin x, Fin y =>
      match Rsign y with
      | Zero => finf (Rsign x)
      | _ => Fin (x / y)
      end
  | Fin _, PInf | Fin _, NInf => Fin 0
  | PInf, Fin y => match Rsign y with Neg => NInf | _ => PInf end
  | NInf, Fin y => match Rsign y with Neg => PInf | _ => NInf end
  | PInf, PInf | PInf, NInf | NInf, PInf | NInf, NInf => NaN
  end.

Definition fabs (a : float) : float :=
  match a with
  | Fin r => Fin (Rabs r)
  | PInf | NInf => PInf
  | NaN => NaN
  end.

Definition Rgtb (x y : R) : bool := if Rgt_dec x y then true else false.

(** [a > b] on floats: false as soon as one side is [NaN]. *)
Definition fgt (a b : float) : bool :=
  match a, b with
  | NaN, _ | _, NaN => false
  | Fin x, Fin y => Rgtb x y
  | PInf, PInf => false
  | PInf, _ => true
  | _, PInf => false
  | NInf, _ => false
  | Fin _, NInf => true
  end.

(** [round(x, 2)] on a float64: nearest multiple of 1/100, ties to the even
    neighbour; the special values are returned unchanged. *)
Definition Rrint (r : R) : Z :=
  let f := Int_part r in
  match total_order_T (frac_part r) (1 / 2) with
  | inleft (left _) => f
  | inleft (right _) => if Z.even f then f else (f + 1)%Z
  | inright _ => (f + 1)%Z
  end.

Definition Rround (r : R) (ndigits : nat) : R :=
  IZR (Rrint (r * 10 ^ ndigits)) / 10 ^ ndigits.

Definition fround (a : float) (ndigits : nat) : float :=
  match a with
  | Fin r => Fin (Rround r ndigits)
  | _ => a
  end.

(** ** pandas reductions over a column of readings *)

Definition Rsum (l : list R) : R := fold_right Rplus 0 l.

(** [Series.mean()]: [NaN] on an empty column. *)
Definition mean (l : list R) : float :=
  match l with
  | [] => NaN
  | _ => Fin (Rsum l / INR (length l))
  end.

(** [Series.std()], with pandas' default [ddof=1]: the squared deviations from
    the mean are summed and divided by [n - 1]; [NaN] below two values. *)
Definition std (l : list R) : float :=
  match l with
  | [] | [_] => NaN
  | _ =>
      let avg := Rsum l / INR (length l) in
      let sqr := map (fun x => (avg - x) * (avg - x)) l in
      Fin (sqrt (Rsum sqr / (INR (length l) - 1)))
  end.

(** [Series.rolling(w).mean()]: [min_periods] defaults to the window, so the
    entry at position [i] is [NaN] until [w] values are available and then the
    mean of the [w] values ending at [i]. *)
Definition rolling_mean (w : nat) (l : list R) : list float :=
  map (fun i =>
         if (S i <? w)%nat then NaN
         else mean (firstn w (skipn (S i - w) l)))
      (seq 0 (length l)).

(** ** The frame *)

(** A line of the CSV file, its [Datetime] text already read as an instant. *)
Record csv_row : Type := mk_csv_row {
  csv_Datetime : Z;
  csv_Zone1 : R;
  csv_Zone2 : R;
  csv_Zone3 : R
}.

Record row : Type := mk_row {
  PowerConsumption_Zone1 : R;
  PowerConsumption_Zone2 : R;
  PowerConsumption_Zone3 : R;
  DateTime : Z;
  Hour : Z;
  Weekday : Z;
  Day_Type : string;
  Total_Load : R;
  Peak_Type : string
}.

(** The DataFrame [df]: the rows built at load time, and the columns that the
    analyses add to it later ([None] while a column does not exist yet). *)
Record frame : Type := mk_frame {
  rows : list row;
  Wastage_Anomaly : option (list bool);
  Rolling_7 : option (list float);
  Rolling_30 : option (list float);
  Z_Score : option (list float);
  Stat_Anomaly : option (list bool)
}.

Definition column {A : Type} (f : row -> A) (df : frame) : list A :=
  map f (rows df).

(** ** Load and preprocess *)

Definition ns_per_hour : Z := 3600 * 1000000000.
Definition ns_per_day : Z := 24 * ns_per_hour.

(** [.dt.hour] and [.dt.weekday] of an instant (Monday is 0; the epoch fell on
    a Thursday). *)
Definition dt_hour (t : Z) : Z := ((t / ns_per_hour) mod 24)%Z.
Definition dt_weekday (t : Z) : Z := ((t / ns_per_day + 3) mod 7)%Z.

(** [Series.between(lo, hi)], inclusive on both sides by default. *)
Definition between (lo hi x : Z) : bool := ((lo <=? x) && (x <=? hi))%Z.

Fixpoint insert_by_time (r : csv_row) (l : list csv_row) : list csv_row :=
  match l with
  | [] => [r]
  | x :: t =>
      if (csv_Datetime r <=? csv_Datetime x)%Z then r :: l
      else x :: insert_by_time r t
  end.

(** [df.sort_values('DateTime')]: ascending by instant (rows with the same
    instant are kept in file order here). *)
Definition sort_values (l : list csv_row) : list csv_row :=
  fold_right insert_by_time [] l.

Definition derive (c : csv_row) : row :=
  let t := csv_Datetime c in
  let hour := dt_hour t in
  let weekday := dt_weekday t in
  {| PowerConsumption_Zone1 := csv_Zone1 c;
     PowerConsumption_Zone2 := csv_Zone2 c;
     PowerConsumption_Zone3 := csv_Zone3 c;
     DateTime := t;
     Hour := hour;
     Weekday := weekday;
     Day_Type := if (weekday <? 5)%Z then "Weekday" else "Weekend";
     Total_Load := csv_Zone1 c + csv_Zone2 c + csv_Zone3 c;
     Peak_Type := if between 18 22 hour then "Peak" else "Off-Peak" |}.

Definition load_and_preprocess (csv : list csv_row) : frame :=
  {| rows := map derive (sort_values csv);
     Wastage_Anomaly := None;
     Rolling_7 := None;
     Rolling_30 := None;
     Z_Score := None;
     Stat_Anomaly := None |}.

(** ** What the script prints *)

Inductive printed : Type :=
| Line (s : string)                      (* print(s) *)
| Count (label : string) (n : nat)       (* print(label, column.sum()) *)
| LabelSeries (s : list (string * R))    (* print of a Series keyed by labels *)
| HourSeries (s : list (Z * R))          (* print of a Series keyed by hour *)
| Score (zone : string) (score : float). (* print(z, ":", score) *)

Definition nl : string := String (Ascii.ascii_of_nat 10) EmptyString.

Definition count_true (l : list bool) : nat :=
  List.length (filter (fun b => b) l).

(** ** groupby(key)['Total_Load'].mean() *)

Section Groupby.
Context {K : Type} (cmp : K -> K -> comparison).

Definition same_key (a b : K) : bool :=
  match cmp a b with Eq => true | _ => false end.

Fixpoint insert_key (k : K) (l : list K) : list K :=
  match l with
  | [] => [k]
  | x :: t =>
      match cmp k x with
      | Lt => k :: l
      | Eq => l
      | Gt => x :: insert_key k t
      end
  end.

(** The distinct keys that occur, in ascending order. *)
Definition group_keys (keys : list K) : list K :=
  fold_right insert_key [] keys.

Definition group (key : row -> K) (l : list row) (k : K) : list row :=
  filter (fun r => same_key (key r) k) l.

(** One entry per key that occurs; a key that occurs has at least one row,
    so its mean is a plain quotient. *)
Definition groupby_mean (key : row -> K) (l : list row) : list (K * R) :=
  map (fun k =>
         let g := map Total_Load (group key l k) in
         (k, Rsum g / INR (List.length g)))
      (group_keys (map key l)).
End Groupby.

(** ** The analyses *)

Definition peak_offpeak_analysis (df : frame) : list printed :=
  let result := groupby_mean String.compare Peak_Type (rows df) in
  [Line (nl ++ "Average Load (Peak vs Off-Peak)")%string; LabelSeries result].

Definition with_Wastage_Anomaly (df : frame) (c : list bool) : frame :=
  {| rows := rows df;
     Wastage_Anomaly := Some c;
     Rolling_7 := Rolling_7 df;
     Rolling_30 := Rolling_30 df;
     Z_Score := Z_Score df;
     Stat_Anomaly := Stat_Anomaly df |}.

(** Returns [(mean_load, std_load)], the frame with its new column, and the
    printed line. *)
Definition wastage_detection (df : frame)
  : (float * float) * frame * list printed :=
  let mean_load := mean (column Total_Load df) in
  let std_load := std (column Total_Load df) in
  let flags :=
    map (fun x => fgt (Fin x) (fadd mean_load (fmul (Fin 2) std_load)))
        (column Total_Load df) in
  ((mean_load, std_load),
   with_Wastage_Anomaly df flags,
   [Count (nl ++ "Total Wastage Events:")%string (count_true flags)]).

Definition rolling_trend (df : frame) : frame :=
  {| rows := rows df;
     Wastage_Anomaly := Wastage_Anomaly df;
     Rolling_7 := Some (rolling_mean 7 (column Total_Load df));
     Rolling_30 := Some (rolling_mean 30 (column Total_Load df));
     Z_Score := Z_Score df;
     Stat_Anomaly := Stat_Anomaly df |}.

Definition weekday_weekend (df : frame) : list printed :=
  let result := groupby_mean String.compare Day_Type (rows df) in
  [Line (nl ++ "Weekday vs Weekend Load")%string; LabelSeries result].

(** Returns [high_risk], the entries of the hourly profile above the
    threshold, and the printed lines. *)
Definition peak_load_risk (df : frame) : list (Z * R) * list printed :=
  let hourly := groupby_mean Z.compare Hour (rows df) in
  let threshold := fadd (mean (map snd hourly)) (std (map snd hourly)) in
  let high_risk := filter (fun e => fgt (Fin (snd e)) threshold) hourly in
  (high_risk, [Line (nl ++ "High Risk Peak Hours:")%string; HourSeries high_risk]).

(** Python's [max] over a non-empty sequence: the first item is kept until a
    later one compares greater. *)
Definition py_max (first : float) (rest : list float) : float :=
  fold_left (fun m x => if fgt x m then x else m) rest first.

Definition zone_avg (df : frame) : list (string * float) :=
  [("Zone1", mean (column PowerConsumption_Zone1 df));
   ("Zone2", mean (column PowerConsumption_Zone2 df));
   ("Zone3", mean (column PowerConsumption_Zone3 df))].

Definition max_load (df : frame) : float :=
  match map snd (zone_avg df) with
  | v :: vs => py_max v vs
  | [] => NaN
  end.

(** The [zones] and [scores] lists that the loop fills, paired up. *)
Definition zone_scores (df : frame) : list (string * float) :=
  map (fun zv =>
         let score := fsub (Fin 100) (fmul (fdiv (snd zv) (max_load df)) (Fin 40)) in
         (fst zv, fround score 2))
      (zone_avg df).

Definition zone_efficiency (df : frame) : list printed :=
  Line (nl ++ "Zone Efficiency Scores:")%string
  :: map (fun zs => Score (fst zs) (snd zs)) (zone_scores df).

Definition z_scores (df : frame) (mean_load std_load : float) : list float :=
  map (fun x => fdiv (fsub (Fin x) mean_load) std_load) (column Total_Load df).

Definition stat_flags (zs : list float) : list bool :=
  map (fun z => fgt (fabs z) (Fin (5 / 2))) zs.

Definition statistical_anomaly (df : frame) (mean_load std_load : float)
  : frame * list printed :=
  let zs := z_scores df mean_load std_load in
  let flags := stat_flags zs in
  ({| rows := rows df;
      Wastage_Anomaly := Wastage_Anomaly df;
      Rolling_7 := Rolling_7 df;
      Rolling_30 := Rolling_30 df;
      Z_Score := Some zs;
      Stat_Anomaly := Some flags |},
   [Count "Statistical Anomalies:" (count_true flags)]).

Definition shift_msg : string := "✔ Shift load to off-peak hours".
Definition stagger_msg : string := "✔ Stagger usage during peak hours".

Definition peak_mean (df : frame) : float :=
  mean (map Total_Load (filter (fun r => String.eqb (Peak_Type r) "Peak") (rows df))).

Definition off_peak_mean (df : frame) : float :=
  mean (map Total_Load (filter (fun r => String.eqb (Peak_Type r) "Off-Peak") (rows df))).

Definition demand_balancing (df : frame) (high_risk : list (Z * R)) : list printed :=
  let peak := peak_mean df in
  let off_peak := off_peak_mean df in
  [Line (nl ++ "Demand Balancing Suggestions:")%string]
  ++ (if fgt peak (fmul off_peak (Fin (115 / 100))) then [Line shift_msg] else [])
  ++ (if (4 <? List.length high_risk)%nat then [Line stagger_msg] else []).

(** ** The session: the module-level variables and the menu loop *)

Module Main.

Record session : Type := mk_session {
  df : frame;
  mean_load : float;
  std_load : float;
  high_risk_hours : option (list (Z * R))   (* [None] until choice 4 runs *)
}.

(** The three statements before the loop. *)
Definition start (csv : list csv_row) : session * list printed :=
  let df0 := load_and_preprocess csv in
  let '(ms, df1, out) := wastage_detection df0 in
  ({| df := df1;
      mean_load := fst ms;
      std_load := snd ms;
      high_risk_hours := None |}, out).

Definition menu : list printed :=
  [Line (nl ++ "🔋 SMART ENERGY ANALYTICS SYSTEM")%string;
   Line "1. Peak vs Off-Peak Analysis";
   Line "2. Rolling Average Trend";
   Line "3. Weekday vs Weekend Analysis";
   Line "4. Peak Load Risk Identification";
   Line "5. Zone Efficiency Scoring";
   Line "6. Statistical Anomaly Detection";
   Line "7. Demand Balancing Strategy";
   Line "8. Exit"].

Definition run_risk_first_msg : string := "⚠ Run Peak Load Risk first".

(** What the operator types at the prompt: text that [int] accepts, or not. *)
Inductive user_input : Type :=
| Entered (choice : Z)
| NotAnInteger.

Inductive exception : Type :=
| ValueError.   (* raised by [int(input(...))] *)

Inductive outcome : Type :=
| Continue (st : session) (out : list printed)   (* back to the prompt *)
| Exit (out : list printed)                      (* [break] *)
| Raised (e : exception) (out : list printed).   (* the script dies *)

Definition set_df (st : session) (d : frame) : session :=
  {| df := d;
     mean_load := mean_load st;
     std_load := std_load st;
     high_risk_hours := high_risk_hours st |}.

Definition set_high_risk_hours (st : session) (h : list (Z * R)) : session :=
  {| df := df st;
     mean_load := mean_load st;
     std_load := std_load st;
     high_risk_hours := Some h |}.

(** One turn of the [while True] loop. *)
Definition step (st : session) (inp : user_input) : outcome :=
  match inp with
  | NotAnInteger => Raised ValueError menu
  | Entered choice =>
      if (choice =? 1)%Z then
        Continue st (menu ++ peak_offpeak_analysis (df st))
      else if (choice =? 2)%Z then
        Continue (set_df st (rolling_trend (df st))) menu
      else if (choice =? 3)%Z then
        Continue st (menu ++ weekday_weekend (df st))
      else if (choice =? 4)%Z then
        let '(high_risk, out) := peak_load_risk (df st) in
        Continue (set_high_risk_hours st high_risk) (menu ++ out)
      else if (choice =? 5)%Z then
        Continue st (menu ++ zone_efficiency (df st))
      else if (choice =? 6)%Z then
        let '(d, out) := statistical_anomaly (df st) (mean_load st) (std_load st) in
        Continue (set_df st d) (menu ++ out)
      else if (choice =? 7)%Z then
        match high_risk_hours st with
        | Some h => Continue st (menu ++ demand_balancing (df st) h)
        | None => Continue st (menu ++ [Line run_risk_first_msg])
        end
      else if (choice =? 8)%Z then
        Exit (menu ++ [Line "Exiting System... Thank You!"])
      else
        Continue st (menu ++ [Line "❌ Invalid choice. Try again."])
  end.

(** The loop over the operator's successive entries. *)
Inductive status : Type :=
| AtPrompt (st : session)    (* entries used up, the loop waits *)
| Exited
| Died (e : exception).

Fixpoint run (st : session) (inputs : list user_input) : status * list printed :=
  match inputs with
  | [] => (AtPrompt st, [])
  | inp :: rest =>
      match step st inp with
      | Continue st' out =>
          let '(s, out') := run st' rest in (s, out ++ out')
      | Exit out => (Exited, out)
      | Raised e out => (Died e, out)
      end
  end.

End Main.

(** ** Notions used to state the properties *)


Definition balancing_header : printed :=
  Line (nl ++ "Demand Balancing Suggestions:")%string.

(** Order of two lines of the file by their instants. *)
Definition earlier (a b : csv_row) : Prop :=
  (csv_Datetime a <= csv_Datetime b)%Z.

(** Whether some row carries the label [a]. *)
Definition occurs (a : string) (key : row -> string) (l : list row) : bool :=
  match filter (fun r => String.eqb (key r) a) l with
  | [] => false
  | _ => true
  end.

(** The entry of label [a] in a printed series: present when the group [g] of
    [a] has rows. *)
Definition series_entry (a : string) (g : list R) : list (string * R) :=
  match g with
  | [] => []
  | _ :: _ => [(a, Rsum g / INR (List.length g))]
  end.

(** ** Sample files *)

Definition boundary_csv : list csv_row :=
  [mk_csv_row (23 * ns_per_hour) 1 2 3;
   mk_csv_row (18 * ns_per_hour) 4 5 6;
   mk_csv_row (22 * ns_per_hour) 7 8 9;
   mk_csv_row (17 * ns_per_hour) 1 1 1].

(** Two readings with the same total load. *)
Definition flat_csv : list csv_row :=
  [mk_csv_row 0 1 1 1; mk_csv_row ns_per_hour 1 1 1].

(** Seven readings with total loads 0, 0, 0, 1, 1, 1 and 11. *)
Definition spike_csv : list csv_row :=
  [mk_csv_row 0 0 0 0;
   mk_csv_row (1 * ns_per_hour) 0 0 0;
   mk_csv_row (2 * ns_per_hour) 0 0 0;
   mk_csv_row (3 * ns_per_hour) 1 0 0;
   mk_csv_row (4 * ns_per_hour) 0 1 0;
   mk_csv_row (5 * ns_per_hour) 0 0 1;
   mk_csv_row (6 * ns_per_hour) 5 4 2].

(** Nine readings with total loads 0 (eight times) and 9. *)
Definition surge_csv : list csv_row :=
  [mk_csv_row 0 0 0 0;
   mk_csv_row (1 * ns_per_hour) 0 0 0;
   mk_csv_row (2 * ns_per_hour) 0 0 0;
   mk_csv_row (3 * ns_per_hour) 0 0 0;
   mk_csv_row (4 * ns_per_hour) 0 0 0;
   mk_csv_row (5 * ns_per_hour) 0 0 0;
   mk_csv_row (6 * ns_per_hour) 0 0 0;
   mk_csv_row (7 * ns_per_hour) 0 0 0;
   mk_csv_row (8 * ns_per_hour) 3 3 3].

(** The readings of the worked example: zone means 100, 80 and 50. *)
Definition zone_example_csv : list csv_row :=
  [mk_csv_row 0 100 80 50].

(** Two readings in which every zone draws nothing. *)
Definition idle_csv : list csv_row :=
  [mk_csv_row 0 0 0 0; mk_csv_row ns_per_hour 0 0 0].


Definition five_hours : list (Z * R) :=
  [(18%Z, 5); (19%Z, 5); (20%Z, 5); (21%Z, 5); (22%Z, 5)].

(** Five readings over two days: total loads 1, 1, 1 at hours 0, 1, 2, and 4
    and 6 at hour 3. *)
Definition risk_csv : list csv_row :=
  [mk_csv_row (27 * ns_per_hour) 2 2 2;
   mk_csv_row 0 1 0 0;
   mk_csv_row (1 * ns_per_hour) 0 1 0;
   mk_csv_row (3 * ns_per_hour) 4 0 0;
   mk_csv_row (2 * ns_per_hour) 0 0 1].

(** * Properties *)

(** ** Comparisons and signs on reals *)

Lemma Rgtb_true (x y : R) : Rgtb x y = true <-> x > y.
Proof.
  unfold Rgtb. destruct (Rgt_dec x y); split; intros; auto; discriminate.
Qed.

Lemma Rgtb_false (x y : R) : Rgtb x y = false <-> x <= y.
Proof.
  unfold Rgtb. destruct (Rgt_dec x y); split; intros; auto; try discriminate; lra.
Qed.

Lemma Rsign_zero : Rsign 0 = Zero.
Proof.
  unfold Rsign. destruct (total_order_T 0 0) as [[H0|H0]|H0]; auto; lra.
Qed.

Lemma Rsign_nonzero (r : R) : r <> 0 -> Rsign r <> Zero.
Proof.
  intros H. unfold Rsign.
  destruct (total_order_T r 0) as [[H0|H0]|H0]; try discriminate. contradiction.
Qed.

(** ** Preprocessing *)

Lemma insert_by_time_In (r x : csv_row) (l : list csv_row) :
  In x (insert_by_time r l) <-> x = r \/ In x l.
Proof.
  induction l as [|y t IH]; simpl.
  - intuition.
  - destruct (csv_Datetime r <=? csv_Datetime y)%Z; simpl; rewrite ?IH; intuition.
Qed.

Lemma sort_values_In (x : csv_row) (l : list csv_row) :
  In x (sort_values l) <-> In x l.
Proof.
  induction l as [|y t IH]; simpl.
  - tauto.
  - rewrite insert_by_time_In, IH. intuition.
Qed.

Lemma preprocessed_row (csv : list csv_row) (r : row) :
  In r (rows (load_and_preprocess csv)) <-> exists c, In c csv /\ r = derive c.
Proof.
  simpl. rewrite in_map_iff. split; intros [c [H1 H2]]; exists c.
  - apply (proj1 (sort_values_In _ _)) in H2.
    split; [exact H2 | symmetry; exact H1].
  - split; [symmetry; exact H2 | apply sort_values_In; exact H1].
Qed.

Lemma derive_peak (c : csv_row) :
  Peak_Type (derive c) = "Peak" <-> (18 <= Hour (derive c) <= 22)%Z.
Proof.
  simpl. unfold between.
  destruct (18 <=? dt_hour (csv_Datetime c))%Z eqn:E1;
    destruct (dt_hour (csv_Datetime c) <=? 22)%Z eqn:E2; simpl;
    rewrite ?Z.leb_le, ?Z.leb_gt in *; split; intros; try discriminate; try lia; auto.
Qed.

Lemma derive_peak_or_off (c : csv_row) :
  Peak_Type (derive c) = "Peak" \/ Peak_Type (derive c) = "Off-Peak".
Proof.
  simpl. destruct (between 18 22 _); auto.
Qed.

(** C5. Every row of the preprocessed frame is labelled [Peak] exactly when
    its hour lies in 18..22, both ends included, and [Off-Peak] otherwise; so
    hours 17 and 23 are [Off-Peak] and hours 18 and 22 are [Peak]. *)
Theorem peak_type_iff_hour_18_22 (csv : list csv_row) (r : row) :
  In r (rows (load_and_preprocess csv)) ->
  (Peak_Type r = "Peak" <-> (18 <= Hour r <= 22)%Z) /\
  (Peak_Type r = "Off-Peak" <-> ~ (18 <= Hour r <= 22)%Z) /\
  (Hour r = 17%Z -> Peak_Type r = "Off-Peak") /\
  (Hour r = 18%Z -> Peak_Type r = "Peak") /\
  (Hour r = 22%Z -> Peak_Type r = "Peak") /\
  (Hour r = 23%Z -> Peak_Type r = "Off-Peak").
Proof.
  intros H. apply preprocessed_row in H. destruct H as [c [_ ->]].
  pose proof (derive_peak c) as P.
  assert (O : Peak_Type (derive c) = "Off-Peak" <-> ~ (18 <= Hour (derive c) <= 22)%Z).
  { split.
    - intros HO HP. apply P in HP. rewrite HP in HO. discriminate.
    - intros HN. destruct (derive_peak_or_off c) as [HP|HO]; auto.
      apply P in HP. contradiction. }
  split; [exact P|]. split; [exact O|].
  repeat split; intros E; (apply P || apply O); rewrite E; lia.
Qed.

Lemma peak_type_iff_hour_18_22_witness :
  In (derive (mk_csv_row (18 * ns_per_hour) 4 5 6))
     (rows (load_and_preprocess boundary_csv)) /\
  Peak_Type (derive (mk_csv_row (18 * ns_per_hour) 4 5 6)) = "Peak".
Proof.
  assert (H : In (derive (mk_csv_row (18 * ns_per_hour) 4 5 6))
                 (rows (load_and_preprocess boundary_csv))).
  { apply preprocessed_row. eexists. split; [|reflexivity].
    simpl. right. left. reflexivity. }
  split; [exact H|].
  destruct (peak_type_iff_hour_18_22 boundary_csv _ H) as [_ [_ [_ [H18 _]]]].
  apply H18. reflexivity.
Defined.

Ltac arith := cbn [Rsum fold_right map List.length INR pow]; lra.

(** ** Rolling means *)

Lemma Rsum_constant (c : R) (l : list R) :
  (forall v, In v l -> v = c) -> Rsum l = INR (List.length l) * c.
Proof.
  induction l as [|x t IH]; intros H.
  - simpl. lra.
  - change (Rsum (x :: t)) with (x + Rsum t).
    change (List.length (x :: t)) with (S (List.length t)).
    rewrite S_INR.
    rewrite IH by (intros v Hv; apply H; simpl; auto).
    rewrite (H x) by (simpl; auto). lra.
Qed.

Lemma In_window (v : R) (k n : nat) (l : list R) :
  In v (skipn k (firstn n l)) -> In v l.
Proof.
  intros H.
  rewrite <- (firstn_skipn n l). apply in_or_app. left.
  rewrite <- (firstn_skipn k (firstn n l)). apply in_or_app. right. exact H.
Qed.

Lemma rolling_mean_length (w : nat) (l : list R) :
  List.length (rolling_mean w l) = List.length l.
Proof.
  unfold rolling_mean. rewrite length_map, length_seq. reflexivity.
Qed.

Lemma rolling_mean_entry (w : nat) (l : list R) (i : nat) :
  (i < List.length l)%nat ->
  nth_error (rolling_mean w l) i =
  Some (if (S i <? w)%nat then NaN
        else mean (skipn (S i - w) (firstn (S i) l))).
Proof.
  intros Hi. unfold rolling_mean.
  rewrite nth_error_map, nth_error_seq.
  destruct (Nat.ltb_spec i (List.length l)) as [_|]; [|lia].
  cbn [option_map Nat.add].
  destruct (Nat.ltb_spec (S i) w) as [|Hw]; [reflexivity|].
  rewrite firstn_skipn_comm.
  replace (S i - w + w)%nat with (S i) by lia. reflexivity.
Qed.

Lemma window_length (w : nat) (l : list R) (i : nat) :
  (i < List.length l)%nat -> (w <= S i)%nat ->
  List.length (skipn (S i - w) (firstn (S i) l)) = w.
Proof.
  intros Hi Hw. rewrite length_skipn, length_firstn. lia.
Qed.

(** Before the window is full the entry is [NaN]. *)
Lemma rolling_mean_undefined (w : nat) (l : list R) (i : nat) :
  (i < List.length l)%nat -> (S i < w)%nat ->
  nth_error (rolling_mean w l) i = Some NaN.
Proof.
  intros Hi Hw. rewrite rolling_mean_entry by exact Hi.
  destruct (Nat.ltb_spec (S i) w); [reflexivity|lia].
Qed.

(** Once the window is full the entry is the sum of the last [w] of the first
    [i + 1] values, divided by [w]. *)
Lemma rolling_mean_defined (w : nat) (l : list R) (i : nat) :
  (0 < w)%nat -> (i < List.length l)%nat -> (w <= S i)%nat ->
  nth_error (rolling_mean w l) i =
  Some (Fin (Rsum (skipn (S i - w) (firstn (S i) l)) / INR w)).
Proof.
  intros H0 Hi Hw. rewrite rolling_mean_entry by exact Hi.
  destruct (Nat.ltb_spec (S i) w); [lia|].
  pose proof (window_length w l i Hi Hw) as HL.
  unfold mean. destruct (skipn (S i - w) (firstn (S i) l)) eqn:E.
  - simpl in HL. lia.
  - rewrite HL. reflexivity.
Qed.

Lemma rolling_mean_constant (w : nat) (l : list R) (c : R) (i : nat) (v : float) :
  (0 < w)%nat ->
  (forall x, In x l -> x = c) ->
  nth_error (rolling_mean w l) i = Some v -> v = NaN \/ v = Fin c.
Proof.
  intros H0 Hc Hv.
  assert (Hi : (i < List.length l)%nat).
  { rewrite <- (rolling_mean_length w l). apply nth_error_Some. congruence. }
  destruct (Nat.ltb_spec (S i) w) as [Hw|Hw].
  - rewrite rolling_mean_undefined in Hv by assumption. left. congruence.
  - rewrite rolling_mean_defined in Hv by assumption. right.
    assert (E : Rsum (skipn (S i - w) (firstn (S i) l)) / INR w = c).
    { rewrite (Rsum_constant c).
      + rewrite window_length by assumption.
        assert (INR w <> 0) by (apply not_0_INR; lia). field. assumption.
      + intros x Hx. apply Hc. eapply In_window. exact Hx. }
    rewrite E in Hv. congruence.
Qed.

Lemma rolling_example :
  rolling_mean 7 [1; 2; 3; 4; 5; 6; 7; 8] =
    [NaN; NaN; NaN; NaN; NaN; NaN; Fin 4; Fin 5].
Proof.
  unfold rolling_mean. cbn [List.length seq map Nat.ltb Nat.leb Nat.sub skipn firstn mean].
  repeat f_equal; arith.
Qed.

(** C6. [rolling_trend] adds two series of the frame's length.  Entry [i] of
    [Rolling_7] is undefined ([NaN], not zero) for [i] in 0..5 and is afterwards
    the plain average of the seven values of [Total_Load] at positions
    [i-6..i]: the last seven of the first [i+1] values, so nothing after row
    [i] is read.  [Rolling_30] is the same with 30 values, undefined for [i]
    in 0..28.  On a frame whose [Total_Load] is constantly [c], every defined
    entry equals [c]. *)
Theorem rolling_trend_trailing_averages (df : frame) :
  let x := column Total_Load df in
  exists r7 r30 : list float,
    Rolling_7 (rolling_trend df) = Some r7 /\
    Rolling_30 (rolling_trend df) = Some r30 /\
    rows (rolling_trend df) = rows df /\
    List.length r7 = List.length x /\
    List.length r30 = List.length x /\
    (forall i, (i < List.length x)%nat -> (i <= 5)%nat ->
               nth_error r7 i = Some NaN) /\
    (forall i, (i < List.length x)%nat -> (i <= 28)%nat ->
               nth_error r30 i = Some NaN) /\
    (forall i, (i < List.length x)%nat -> (6 <= i)%nat ->
               List.length (skipn (i - 6) (firstn (S i) x)) = 7%nat /\
               nth_error r7 i =
               Some (Fin (Rsum (skipn (i - 6) (firstn (S i) x)) / 7))) /\
    (forall i, (i < List.length x)%nat -> (29 <= i)%nat ->
               List.length (skipn (i - 29) (firstn (S i) x)) = 30%nat /\
               nth_error r30 i =
               Some (Fin (Rsum (skipn (i - 29) (firstn (S i) x)) / 30))) /\
    (forall c, (forall v, In v x -> v = c) ->
               forall i v, nth_error r7 i = Some v \/ nth_error r30 i = Some v ->
                           v = NaN \/ v = Fin c).
Proof.
  intros x. exists (rolling_mean 7 x), (rolling_mean 30 x).
  split; [reflexivity|]. split; [reflexivity|]. split; [reflexivity|].
  split; [apply rolling_mean_length|]. split; [apply rolling_mean_length|].
  split; [intros i Hi H; apply rolling_mean_undefined; [exact Hi|lia]|].
  split; [intros i Hi H; apply rolling_mean_undefined; [exact Hi|lia]|].
  split.
  { intros i Hi H. replace (i - 6)%nat with (S i - 7)%nat by lia. split.
    - apply window_length; [exact Hi|lia].
    - rewrite rolling_mean_defined by (try exact Hi; lia).
      repeat f_equal. simpl. lra. }
  split.
  { intros i Hi H. replace (i - 29)%nat with (S i - 30)%nat by lia. split.
    - apply window_length; [exact Hi|lia].
    - rewrite rolling_mean_defined by (try exact Hi; lia).
      repeat f_equal. rewrite INR_IZR_INZ. reflexivity. }
  intros c Hc i v [Hv|Hv].
  - apply (rolling_mean_constant 7 x c i v); [lia|exact Hc|exact Hv].
  - apply (rolling_mean_constant 30 x c i v); [lia|exact Hc|exact Hv].
Qed.

(** ** Mean, standard deviation and the wastage flag *)

Lemma count_true_le (l : list bool) : (count_true l <= List.length l)%nat.
Proof.
  unfold count_true. induction l as [|b t IH]; simpl; [lia|].
  destruct b; simpl; lia.
Qed.

Lemma mean_nonempty (l : list R) :
  l <> [] -> mean l = Fin (Rsum l / INR (List.length l)).
Proof.
  destruct l; [congruence|reflexivity].
Qed.

Lemma std_two_or_more (l : list R) :
  (2 <= List.length l)%nat ->
  std l = Fin (sqrt (Rsum (map (fun v => (v - Rsum l / INR (List.length l)) ^ 2) l)
                     / (INR (List.length l) - 1))).
Proof.
  intros H. destruct l as [|a [|b t]]; simpl in H; try lia.
  unfold std. do 3 f_equal.
  apply (f_equal Rsum). apply map_ext. intros v. ring.
Qed.

Lemma std_nonneg (l : list R) (s : R) : std l = Fin s -> 0 <= s.
Proof.
  destruct l as [|a [|b t]]; try discriminate.
  unfold std. intros H. injection H as <-. apply sqrt_pos.
Qed.

Lemma flags_entry (x : list R) (thr : R) (i : nat) (v : R) :
  nth_error x i = Some v ->
  (nth_error (map (fun v => fgt (Fin v) (Fin thr)) x) i = Some true <-> v > thr).
Proof.
  intros H. rewrite nth_error_map, H. simpl. rewrite <- Rgtb_true.
  split; [intros E; injection E; auto | intros ->; reflexivity].
Qed.

(** C1. On a frame of at least two rows, [wastage_detection] returns the pair
    of the arithmetic mean [m] of [Total_Load] and its sample standard
    deviation [s] (squared deviations from [m], summed and divided by [n-1],
    then the square root); the column it adds flags row [i] exactly when its
    [Total_Load] is strictly above [m + 2 s]; the number of flagged rows, which
    is what it prints, is at most the number of rows. *)
Theorem wastage_detection_mean_std_flags (df : frame) :
  (2 <= List.length (rows df))%nat ->
  let x := column Total_Load df in
  let n := INR (List.length x) in
  let m := Rsum x / n in
  let s := sqrt (Rsum (map (fun v => (v - m) ^ 2) x) / (n - 1)) in
  exists flags : list bool,
    wastage_detection df =
      ((Fin m, Fin s),
       with_Wastage_Anomaly df flags,
       [Count (nl ++ "Total Wastage Events:")%string (count_true flags)]) /\
    List.length flags = List.length (rows df) /\
    (forall i v, nth_error x i = Some v ->
                 (nth_error flags i = Some true <-> v > m + 2 * s)) /\
    (count_true flags <= List.length (rows df))%nat.
Proof.
  intros H x n m s.
  assert (Hx : (2 <= List.length x)%nat).
  { unfold x, column. rewrite length_map. exact H. }
  assert (Hm : mean x = Fin m).
  { apply mean_nonempty. intros E. rewrite E in Hx. simpl in Hx. lia. }
  assert (Hs : std x = Fin s) by (apply std_two_or_more; exact Hx).
  exists (map (fun v => fgt (Fin v) (Fin (m + 2 * s))) x).
  split; [|split; [|split]].
  - unfold wastage_detection. fold x. rewrite Hm, Hs. reflexivity.
  - unfold x, column. rewrite !length_map. reflexivity.
  - intros i v Hv. apply flags_entry. exact Hv.
  - rewrite <- (length_map Total_Load (rows df)).
    fold (column Total_Load df). fold x.
    rewrite <- (length_map (fun v => fgt (Fin v) (Fin (m + 2 * s))) x).
    apply count_true_le.
Qed.

(** ** Z-scores *)

Lemma fdiv_nonzero (a s : R) : s <> 0 -> fdiv (Fin a) (Fin s) = Fin (a / s).
Proof.
  intros H. unfold fdiv. pose proof (Rsign_nonzero s H).
  destruct (Rsign s); [reflexivity|contradiction|reflexivity].
Qed.

Lemma fdiv_zero (a : R) : fdiv (Fin a) (Fin 0) = finf (Rsign a).
Proof.
  unfold fdiv. rewrite Rsign_zero. reflexivity.
Qed.

Lemma finf_flagged (a : R) :
  fgt (fabs (finf (Rsign a))) (Fin (5 / 2)) = true <-> a <> 0.
Proof.
  unfold Rsign. destruct (total_order_T a 0) as [[H|H]|H]; simpl;
    split; intros; try reflexivity; try discriminate; try lra.
Qed.

Lemma z_scores_entry (df : frame) (m s : float) (i : nat) (x : R) :
  nth_error (column Total_Load df) i = Some x ->
  nth_error (z_scores df m s) i = Some (fdiv (fsub (Fin x) m) s).
Proof.
  intros H. unfold z_scores. rewrite nth_error_map, H. reflexivity.
Qed.

Lemma stat_flags_entry (zs : list float) (i : nat) (z : float) :
  nth_error zs i = Some z ->
  nth_error (stat_flags zs) i = Some (fgt (fabs z) (Fin (5 / 2))).
Proof.
  intros H. unfold stat_flags. rewrite nth_error_map, H. reflexivity.
Qed.

Lemma Some_true_iff (b : bool) (P : Prop) :
  (b = true <-> P) -> (Some b = Some true <-> P).
Proof.
  intros H. rewrite <- H. split; [intros E; injection E; auto | intros ->; reflexivity].
Qed.

(** C7 (as the script behaves). [statistical_anomaly] never fails.  With a
    finite mean [m] and a standard deviation of exactly 0, the z-score of a row
    is +infinity, -infinity or [NaN] as its [Total_Load] is above, below or
    equal to [m], and the row is flagged exactly when its [Total_Load] differs
    from [m].  With a finite standard deviation [s <> 0], the z-score is
    [(Total_Load - m) / s] and the row is flagged exactly when the absolute
    value of that is strictly above 2.5.  The printed count is the number of
    flagged rows. *)
Theorem statistical_anomaly_total (df : frame) (m s : R) :
  exists (zs : list float) (flags : list bool) (df' : frame),
    statistical_anomaly df (Fin m) (Fin s) =
      (df', [Count "Statistical Anomalies:" (count_true flags)]) /\
    rows df' = rows df /\
    Z_Score df' = Some zs /\
    Stat_Anomaly df' = Some flags /\
    List.length zs = List.length (rows df) /\
    List.length flags = List.length (rows df) /\
    forall i x, nth_error (column Total_Load df) i = Some x ->
      (s = 0 ->
         nth_error zs i = Some (finf (Rsign (x - m))) /\
         (nth_error flags i = Some true <-> x <> m)) /\
      (s <> 0 ->
         nth_error zs i = Some (Fin ((x - m) / s)) /\
         (nth_error flags i = Some true <-> Rabs ((x - m) / s) > 5 / 2)).
Proof.
  exists (z_scores df (Fin m) (Fin s)),
         (stat_flags (z_scores df (Fin m) (Fin s))).
  eexists. split; [reflexivity|]. simpl.
  split; [reflexivity|]. split; [reflexivity|]. split; [reflexivity|].
  split; [unfold z_scores, column; rewrite !length_map; reflexivity|].
  split; [unfold stat_flags, z_scores, column; rewrite !length_map; reflexivity|].
  intros i x Hx.
  pose proof (z_scores_entry df (Fin m) (Fin s) i x Hx) as Hz.
  pose proof (stat_flags_entry _ _ _ Hz) as Hf.
  change (fsub (Fin x) (Fin m)) with (Fin (x - m)) in Hz, Hf.
  split; intros Hs.
  - subst s. rewrite fdiv_zero in Hz, Hf. split; [exact Hz|].
    rewrite Hf. apply Some_true_iff. rewrite finf_flagged. lra.
  - rewrite fdiv_nonzero in Hz, Hf by exact Hs. split; [exact Hz|].
    rewrite Hf. apply Some_true_iff. simpl. apply Rgtb_true.
Qed.

(** ** Evaluating the reductions on given columns *)

Lemma mean_value (l : list R) (m : R) :
  l <> [] -> Rsum l = INR (List.length l) * m -> mean l = Fin m.
Proof.
  intros Hl Hs. rewrite mean_nonempty by exact Hl. f_equal. rewrite Hs.
  assert (INR (List.length l) <> 0).
  { apply not_0_INR. destruct l; [congruence|discriminate]. }
  field. assumption.
Qed.

Lemma std_value (l : list R) (m v : R) :
  (2 <= List.length l)%nat ->
  Rsum l = INR (List.length l) * m ->
  0 <= v ->
  Rsum (map (fun x => (x - m) ^ 2) l) = (INR (List.length l) - 1) * (v * v) ->
  std l = Fin v.
Proof.
  intros Hl Hs Hv Hq. rewrite std_two_or_more by exact Hl. f_equal.
  assert (Hn : 2 <= INR (List.length l)).
  { change 2 with (INR 2). apply le_INR. exact Hl. }
  replace (Rsum l / INR (List.length l)) with m by (rewrite Hs; field; lra).
  rewrite Hq.
  replace ((INR (List.length l) - 1) * (v * v) / (INR (List.length l) - 1))
    with (v * v) by (field; lra).
  apply sqrt_square. exact Hv.
Qed.

Lemma flat_stats :
  wastage_detection (load_and_preprocess flat_csv) =
    ((Fin 3, Fin 0),
     with_Wastage_Anomaly (load_and_preprocess flat_csv) [false; false],
     [Count (nl ++ "Total Wastage Events:")%string 0%nat]).
Proof.
  unfold wastage_detection.
  change (column Total_Load (load_and_preprocess flat_csv))
    with [1 + 1 + 1; 1 + 1 + 1].
  rewrite (mean_value _ 3) by (try discriminate; arith).
  rewrite (std_value _ 3 0) by (try (simpl; lia); arith).
  assert (E : fgt (Fin (1 + 1 + 1)) (fadd (Fin 3) (fmul (Fin 2) (Fin 0))) = false).
  { simpl. apply Rgtb_false. lra. }
  cbn [map]. rewrite E. reflexivity.
Qed.

Ltac decide_gt :=
  repeat match goal with
    | |- context [Rgtb ?a ?b] =>
        first [ replace (Rgtb a b) with true by (symmetry; apply Rgtb_true; lra)
              | replace (Rgtb a b) with false by (symmetry; apply Rgtb_false; lra) ]
    end.

Lemma spike_stats :
  wastage_detection (load_and_preprocess spike_csv) =
    ((Fin 2, Fin 4),
     with_Wastage_Anomaly (load_and_preprocess spike_csv)
       [false; false; false; false; false; false; true],
     [Count (nl ++ "Total Wastage Events:")%string 1%nat]).
Proof.
  unfold wastage_detection.
  change (column Total_Load (load_and_preprocess spike_csv))
    with [0 + 0 + 0; 0 + 0 + 0; 0 + 0 + 0; 1 + 0 + 0; 0 + 1 + 0; 0 + 0 + 1; 5 + 4 + 2].
  rewrite (mean_value _ 2) by (try discriminate; arith).
  rewrite (std_value _ 2 4) by (try (simpl; lia); arith).
  cbn [map fgt fadd fmul]. decide_gt. reflexivity.
Qed.

Lemma surge_stats :
  wastage_detection (load_and_preprocess surge_csv) =
    ((Fin 1, Fin 3),
     with_Wastage_Anomaly (load_and_preprocess surge_csv)
       [false; false; false; false; false; false; false; false; true],
     [Count (nl ++ "Total Wastage Events:")%string 1%nat]).
Proof.
  unfold wastage_detection.
  change (column Total_Load (load_and_preprocess surge_csv))
    with [0 + 0 + 0; 0 + 0 + 0; 0 + 0 + 0; 0 + 0 + 0; 0 + 0 + 0;
          0 + 0 + 0; 0 + 0 + 0; 0 + 0 + 0; 3 + 3 + 3].
  rewrite (mean_value _ 1) by (try discriminate; arith).
  rewrite (std_value _ 1 3) by (try (simpl; lia); arith).
  cbn [map fgt fadd fmul]. decide_gt. reflexivity.
Qed.

Lemma wastage_detection_mean_std_flags_witness :
  (2 <= List.length (rows (load_and_preprocess spike_csv)))%nat /\
  exists flags : list bool,
    wastage_detection (load_and_preprocess spike_csv) =
      ((Fin 2, Fin 4),
       with_Wastage_Anomaly (load_and_preprocess spike_csv) flags,
       [Count (nl ++ "Total Wastage Events:")%string (count_true flags)]) /\
    (count_true flags <= 7)%nat.
Proof.
  assert (H : (2 <= List.length (rows (load_and_preprocess spike_csv)))%nat)
    by (simpl; lia).
  split; [exact H|].
  destruct (wastage_detection_mean_std_flags _ H) as [flags [E [_ [_ L]]]].
  exists flags. split; [|exact L].
  rewrite spike_stats in E |- *.
  apply (f_equal (fun t => Wastage_Anomaly (snd (fst t)))) in E.
  cbn [fst snd with_Wastage_Anomaly Wastage_Anomaly] in E.
  injection E as <-. reflexivity.
Defined.

(** The script on the two equal readings: the shared standard deviation is 0,
    and choice 6 runs to the next prompt. *)
Lemma zero_std_raises_nothing :
  exists st' : Main.session,
    Main.std_load (fst (Main.start flat_csv)) = Fin 0 /\
    Main.step (fst (Main.start flat_csv)) (Main.Entered 6) =
      Main.Continue st' (Main.menu ++ [Count "Statistical Anomalies:" 0%nat]) /\
    Z_Score (Main.df st') = Some [NaN; NaN] /\
    Stat_Anomaly (Main.df st') = Some [false; false] /\
    forall e out, Main.step (fst (Main.start flat_csv)) (Main.Entered 6)
                  <> Main.Raised e out.
Proof.
  assert (Z : fdiv (fsub (Fin (1 + 1 + 1)) (Fin 3)) (Fin 0) = NaN).
  { change (fsub (Fin (1 + 1 + 1)) (Fin 3)) with (Fin (1 + 1 + 1 - 3)).
    replace (1 + 1 + 1 - 3) with 0 by lra.
    rewrite fdiv_zero, Rsign_zero. reflexivity. }
  unfold Main.start. rewrite flat_stats.
  cbn [fst snd Main.step Main.df Main.mean_load Main.std_load Z.eqb Pos.eqb].
  unfold statistical_anomaly, z_scores.
  change (column Total_Load
            (with_Wastage_Anomaly (load_and_preprocess flat_csv) [false; false]))
    with [1 + 1 + 1; 1 + 1 + 1].
  cbn [map]. rewrite Z.
  eexists. split; [reflexivity|]. split; [reflexivity|].
  split; [reflexivity|]. split; [reflexivity|]. discriminate.
Qed.

(** ** The two anomaly flags against the same mean and deviation *)

Lemma wastage_pair (df0 : frame) (m s : R) :
  fst (fst (wastage_detection df0)) = (Fin m, Fin s) ->
  snd (fst (wastage_detection df0)) =
    with_Wastage_Anomaly df0
      (map (fun v => fgt (Fin v) (Fin (m + 2 * s))) (column Total_Load df0)).
Proof.
  unfold wastage_detection. cbn [fst snd]. intros E.
  injection E as -> ->. reflexivity.
Qed.

Lemma z_above (x m s : R) :
  s > 0 -> (x - m) / s > 5 / 2 -> x > m + 5 / 2 * s /\ x > m + 2 * s.
Proof.
  intros Hs Hz.
  assert (E : x - m = (x - m) / s * s) by (field; lra).
  assert (H : (x - m) / s * s > 5 / 2 * s) by (apply Rmult_gt_compat_r; assumption).
  split; nra.
Qed.

Lemma spike_both_detectors :
  let df := snd (fst (wastage_detection (load_and_preprocess spike_csv))) in
  let df' := fst (statistical_anomaly df (Fin 2) (Fin 4)) in
  Wastage_Anomaly df' = Some [false; false; false; false; false; false; true] /\
  Z_Score df' = Some [Fin (- (1 / 2)); Fin (- (1 / 2)); Fin (- (1 / 2));
                      Fin (- (1 / 4)); Fin (- (1 / 4)); Fin (- (1 / 4));
                      Fin (9 / 4)] /\
  Stat_Anomaly df' = Some [false; false; false; false; false; false; false].
Proof.
  rewrite spike_stats. cbn [fst snd]. split; [reflexivity|].
  assert (Z : z_scores (with_Wastage_Anomaly (load_and_preprocess spike_csv)
                          [false; false; false; false; false; false; true])
                       (Fin 2) (Fin 4)
              = [Fin (- (1 / 2)); Fin (- (1 / 2)); Fin (- (1 / 2));
                 Fin (- (1 / 4)); Fin (- (1 / 4)); Fin (- (1 / 4)); Fin (9 / 4)]).
  { unfold z_scores.
    change (column Total_Load
              (with_Wastage_Anomaly (load_and_preprocess spike_csv)
                 [false; false; false; false; false; false; true]))
      with [0 + 0 + 0; 0 + 0 + 0; 0 + 0 + 0; 1 + 0 + 0; 0 + 1 + 0; 0 + 0 + 1; 5 + 4 + 2].
    cbn [map fsub fadd fopp]. rewrite !fdiv_nonzero by lra.
    repeat (f_equal; [f_equal; lra|]). do 2 f_equal. lra. }
  unfold statistical_anomaly. cbn [fst Z_Score Stat_Anomaly]. rewrite Z.
  split; [reflexivity|].
  unfold stat_flags. cbn [map fabs fgt]. f_equal.
  repeat match goal with
    | |- context [Rgtb (Rabs ?a) ?b] =>
        replace (Rgtb (Rabs a) b) with false
          by (symmetry; apply Rgtb_false; unfold Rabs; destruct (Rcase_abs a); lra)
    end.
  reflexivity.
Qed.

(** C10. Take the pair [(m, s)] returned by [wastage_detection], with
    [s > 0], and run [statistical_anomaly] with it.  Every row that is flagged
    [Stat_Anomaly] with a positive z-score has a z-score above 2.5, that is a
    [Total_Load] above [m + 2.5 s], and is flagged [Wastage_Anomaly] too.  The
    converse fails: on the frame with total loads 0, 0, 0, 1, 1, 1, 11 (mean 2,
    deviation 4) the last row is a wastage anomaly and not a statistical one. *)
Theorem positive_stat_anomaly_is_wastage :
  (forall (df0 : frame) (m s : R) (i : nat) (zs : list float) (sf : list bool)
          (z : float),
      fst (fst (wastage_detection df0)) = (Fin m, Fin s) ->
      s > 0 ->
      let df := snd (fst (wastage_detection df0)) in
      let df' := fst (statistical_anomaly df (Fin m) (Fin s)) in
      Z_Score df' = Some zs ->
      Stat_Anomaly df' = Some sf ->
      nth_error zs i = Some z ->
      fgt z (Fin 0) = true ->
      nth_error sf i = Some true ->
      exists (wf : list bool) (x : R),
        Wastage_Anomaly df' = Some wf /\
        nth_error wf i = Some true /\
        nth_error (column Total_Load df0) i = Some x /\
        z = Fin ((x - m) / s) /\
        (x - m) / s > 5 / 2 /\
        x > m + 5 / 2 * s /\
        x > m + 2 * s) /\
  (exists (df0 : frame) (m s : R) (i : nat) (wf sf : list bool),
      fst (fst (wastage_detection df0)) = (Fin m, Fin s) /\
      s > 0 /\
      let df := snd (fst (wastage_detection df0)) in
      let df' := fst (statistical_anomaly df (Fin m) (Fin s)) in
      Wastage_Anomaly df' = Some wf /\
      Stat_Anomaly df' = Some sf /\
      nth_error wf i = Some true /\
      nth_error sf i = Some false).
Proof.
  split.
  - intros df0 m s i zs sf z Hp Hs df df' Hzs Hsf Hz Hpos Hflag.
    unfold df' in *. unfold df in *. clear df df'.
    rewrite (wastage_pair df0 m s Hp) in *.
    unfold statistical_anomaly in *. cbn [fst Z_Score Stat_Anomaly Wastage_Anomaly] in *.
    injection Hzs as <-. injection Hsf as <-.
    unfold z_scores in Hz, Hflag.
    change (column Total_Load (with_Wastage_Anomaly df0 _))
      with (column Total_Load df0) in Hz, Hflag.
    unfold stat_flags in Hflag.
    rewrite !nth_error_map in Hflag. rewrite nth_error_map in Hz.
    destruct (nth_error (column Total_Load df0) i) as [x|] eqn:Hx; [|discriminate].
    cbn [option_map] in Hz, Hflag.
    change (fsub (Fin x) (Fin m)) with (Fin (x - m)) in Hz, Hflag.
    rewrite fdiv_nonzero in Hz, Hflag by lra.
    injection Hz as <-. injection Hflag as Hflag.
    cbn [fabs fgt] in Hflag, Hpos.
    apply Rgtb_true in Hflag. apply Rgtb_true in Hpos.
    rewrite Rabs_right in Hflag by lra.
    destruct (z_above x m s Hs Hflag) as [H1 H2].
    eexists. exists x. split; [reflexivity|].
    split; [|repeat split; assumption].
    rewrite nth_error_map, Hx. cbn [option_map fgt]. f_equal.
    apply Rgtb_true. exact H2.
  - exists (load_and_preprocess spike_csv), 2, 4, 6%nat.
    exists [false; false; false; false; false; false; true].
    exists [false; false; false; false; false; false; false].
    destruct spike_both_detectors as [Hw [_ Hs]].
    split; [rewrite spike_stats; reflexivity|].
    split; [lra|].
    split; [exact Hw|]. split; [exact Hs|]. split; reflexivity.
Qed.

Lemma positive_stat_anomaly_is_wastage_witness :
  fst (fst (wastage_detection (load_and_preprocess surge_csv))) = (Fin 1, Fin 3) /\
  3 > 0 /\
  exists (wf : list bool) (x : R),
    Wastage_Anomaly
      (fst (statistical_anomaly
              (snd (fst (wastage_detection (load_and_preprocess surge_csv))))
              (Fin 1) (Fin 3))) = Some wf /\
    nth_error wf 8 = Some true /\
    x > 1 + 2 * 3.
Proof.
  assert (Hp : fst (fst (wastage_detection (load_and_preprocess surge_csv)))
               = (Fin 1, Fin 3)) by (rewrite surge_stats; reflexivity).
  assert (Hs : 3 > 0) by lra.
  split; [exact Hp|]. split; [exact Hs|].
  assert (Hz : fdiv (fsub (Fin (3 + 3 + 3)) (Fin 1)) (Fin 3)
               = Fin ((3 + 3 + 3 - 1) / 3)).
  { change (fsub (Fin (3 + 3 + 3)) (Fin 1)) with (Fin (3 + 3 + 3 - 1)).
    apply fdiv_nonzero. lra. }
  destruct (proj1 positive_stat_anomaly_is_wastage
              (load_and_preprocess surge_csv) 1 3 8%nat
              (z_scores (load_and_preprocess surge_csv) (Fin 1) (Fin 3))
              (stat_flags (z_scores (load_and_preprocess surge_csv) (Fin 1) (Fin 3)))
              (fdiv (fsub (Fin (3 + 3 + 3)) (Fin 1)) (Fin 3))
              Hp Hs)
    as [wf [x [H1 [H2 [_ [_ [_ [_ H3]]]]]]]].
  - reflexivity.
  - reflexivity.
  - reflexivity.
  - rewrite Hz. apply Rgtb_true. lra.
  - change (Some (fgt (fabs (fdiv (fsub (Fin (3 + 3 + 3)) (Fin 1)) (Fin 3)))
                      (Fin (5 / 2))) = Some true).
    rewrite Hz. f_equal. apply Rgtb_true.
    rewrite Rabs_right by lra. lra.
  - exists wf, x. split; [exact H1|]. split; [exact H2|exact H3].
Defined.

(** ** Rounding *)

Lemma Int_part_IZR (z : Z) : Int_part (IZR z) = z.
Proof.
  symmetry. apply Int_part_spec. lra.
Qed.

Lemma frac_part_IZR (z : Z) : frac_part (IZR z) = 0.
Proof.
  unfold frac_part. rewrite Int_part_IZR. lra.
Qed.

Lemma Rrint_IZR (z : Z) : Rrint (IZR z) = z.
Proof.
  unfold Rrint. rewrite frac_part_IZR, Int_part_IZR.
  destruct (total_order_T 0 (1 / 2)) as [[H|H]|H]; [reflexivity|lra|lra].
Qed.

(** [Rrint] is a nearest integer. *)
Lemma Rrint_nearest (r : R) : Rabs (IZR (Rrint r) - r) <= 1 / 2.
Proof.
  unfold Rrint. pose proof (base_fp r) as [H0 H1].
  assert (E : r = IZR (Int_part r) + frac_part r) by (unfold frac_part; lra).
  destruct (total_order_T (frac_part r) (1 / 2)) as [[H|H]|H].
  - rewrite Rabs_left1 by lra. lra.
  - destruct (Z.even (Int_part r)).
    + rewrite Rabs_left1 by lra. lra.
    + rewrite plus_IZR. rewrite Rabs_right by lra. lra.
  - rewrite plus_IZR. rewrite Rabs_right by lra. lra.
Qed.

(** [round(x, 2)] is a multiple of 1/100 at most 1/200 away from [x]. *)
Lemma Rround_2_nearest (r : R) :
  Rabs (Rround r 2 - r) <= 1 / 200 /\ exists k : Z, Rround r 2 = IZR k / 100.
Proof.
  unfold Rround. replace (10 ^ 2) with 100 by (simpl; lra). split.
  - pose proof (Rrint_nearest (r * 100)) as H.
    replace (IZR (Rrint (r * 100)) / 100 - r)
      with ((IZR (Rrint (r * 100)) - r * 100) / 100) by lra.
    unfold Rdiv. rewrite Rabs_mult, (Rabs_right (/ 100)) by lra. lra.
  - eexists. reflexivity.
Qed.

Lemma Rround_2_hundredths (z : Z) (r : R) :
  r * 100 = IZR z -> Rround r 2 = IZR z / 100.
Proof.
  intros H. unfold Rround. replace (10 ^ 2) with 100 by (simpl; lra).
  rewrite H, Rrint_IZR. reflexivity.
Qed.

(** ** Zone efficiency *)

Lemma py_max_three (a b c : R) :
  py_max (Fin a) [Fin b; Fin c] = Fin (Rmax (Rmax a b) c).
Proof.
  unfold py_max. cbn [fold_left fgt].
  assert (E1 : (if Rgtb b a then Fin b else Fin a) = Fin (Rmax a b)).
  { unfold Rgtb, Rmax. destruct (Rgt_dec b a), (Rle_dec a b); f_equal; lra. }
  rewrite E1. cbn [fgt]. generalize (Rmax a b). intros m.
  unfold Rgtb, Rmax. destruct (Rgt_dec c m), (Rle_dec m c); f_equal; lra.
Qed.

Lemma Rsum_nonneg (l : list R) : (forall v, In v l -> 0 <= v) -> 0 <= Rsum l.
Proof.
  induction l as [|x t IH]; intros H; simpl; [lra|].
  assert (0 <= x) by (apply H; simpl; auto).
  assert (0 <= Rsum t) by (apply IH; intros v Hv; apply H; simpl; auto).
  unfold Rsum in *. lra.
Qed.

Lemma column_mean_nonneg (f : row -> R) (df : frame) :
  rows df <> [] ->
  (forall r, In r (rows df) -> 0 <= f r) ->
  0 <= Rsum (column f df) / INR (List.length (rows df)).
Proof.
  intros Hne H.
  assert (0 < INR (List.length (rows df))).
  { apply lt_0_INR. destruct (rows df); [congruence|simpl; lia]. }
  assert (0 <= Rsum (column f df)).
  { apply Rsum_nonneg. intros v Hv. unfold column in Hv.
    apply in_map_iff in Hv. destruct Hv as [r [<- Hr]]. apply H. exact Hr. }
  apply Rmult_le_pos; [assumption|]. apply Rlt_le, Rinv_0_lt_compat. assumption.
Qed.

Lemma column_mean (f : row -> R) (df : frame) :
  rows df <> [] ->
  mean (column f df) = Fin (Rsum (column f df) / INR (List.length (rows df))).
Proof.
  intros H. rewrite mean_nonempty.
  - unfold column. rewrite length_map. reflexivity.
  - unfold column. destruct (rows df); [congruence|discriminate].
Qed.

Lemma score_value (v M : R) :
  M <> 0 ->
  fround (fsub (Fin 100) (fmul (fdiv (Fin v) (Fin M)) (Fin 40))) 2
  = Fin (Rround (100 - v / M * 40) 2).
Proof.
  intros H. rewrite fdiv_nonzero by exact H. reflexivity.
Qed.




Lemma score_zero_over_zero :
  fround (fsub (Fin 100) (fmul (fdiv (Fin 0) (Fin 0)) (Fin 40))) 2 = NaN.
Proof.
  rewrite fdiv_zero, Rsign_zero. reflexivity.
Qed.

Lemma py_max_zeros : py_max (Fin 0) [Fin 0; Fin 0] = Fin 0.
Proof.
  rewrite py_max_three. f_equal.
  rewrite (Rmax_left 0 0) by lra. apply Rmax_left. lra.
Qed.

Lemma zone_scores_zero_means (df : frame) :
  zone_avg df = [("Zone1", Fin 0); ("Zone2", Fin 0); ("Zone3", Fin 0)] ->
  zone_scores df = [("Zone1", NaN); ("Zone2", NaN); ("Zone3", NaN)].
Proof.
  intros A. unfold zone_scores, max_load. rewrite A. cbn [map fst snd].
  rewrite py_max_zeros, score_zero_over_zero. reflexivity.
Qed.

(** C9 (as the script behaves). When the three zone means are all zero,
    [zone_efficiency] does not fail: the largest mean is 0, each quotient is
    0/0, and the three scores, still reported in the order Zone1, Zone2,
    Zone3, are all [NaN]. *)
Theorem zone_efficiency_all_zero (df : frame) :
  mean (column PowerConsumption_Zone1 df) = Fin 0 ->
  mean (column PowerConsumption_Zone2 df) = Fin 0 ->
  mean (column PowerConsumption_Zone3 df) = Fin 0 ->
  max_load df = Fin 0 /\
  zone_scores df = [("Zone1", NaN); ("Zone2", NaN); ("Zone3", NaN)] /\
  zone_efficiency df =
    [Line (nl ++ "Zone Efficiency Scores:")%string;
     Score "Zone1" NaN; Score "Zone2" NaN; Score "Zone3" NaN].
Proof.
  intros H1 H2 H3.
  assert (A : zone_avg df = [("Zone1", Fin 0); ("Zone2", Fin 0); ("Zone3", Fin 0)]).
  { unfold zone_avg. rewrite H1, H2, H3. reflexivity. }
  split; [|split].
  - unfold max_load. rewrite A. cbn [map snd]. apply py_max_zeros.
  - apply zone_scores_zero_means. exact A.
  - unfold zone_efficiency. rewrite (zone_scores_zero_means df A). reflexivity.
Qed.

Lemma idle_zone_avg (df : frame) :
  rows df = rows (load_and_preprocess idle_csv) ->
  zone_avg df = [("Zone1", Fin 0); ("Zone2", Fin 0); ("Zone3", Fin 0)].
Proof.
  intros H. unfold zone_avg, column. rewrite H.
  change (map PowerConsumption_Zone1 (rows (load_and_preprocess idle_csv))) with [0; 0].
  change (map PowerConsumption_Zone2 (rows (load_and_preprocess idle_csv))) with [0; 0].
  change (map PowerConsumption_Zone3 (rows (load_and_preprocess idle_csv))) with [0; 0].
  rewrite (mean_value _ 0) by (try discriminate; arith). reflexivity.
Qed.

Lemma zone_efficiency_all_zero_witness :
  mean (column PowerConsumption_Zone1 (load_and_preprocess idle_csv)) = Fin 0 /\
  zone_scores (load_and_preprocess idle_csv) =
    [("Zone1", NaN); ("Zone2", NaN); ("Zone3", NaN)].
Proof.
  assert (H : mean [0; 0] = Fin 0) by (apply mean_value; [discriminate|arith]).
  split; [exact H|].
  apply (zone_efficiency_all_zero (load_and_preprocess idle_csv) H H H).
Defined.

Lemma all_zero_zones_raise_nothing :
  Main.step (fst (Main.start idle_csv)) (Main.Entered 5) =
    Main.Continue (fst (Main.start idle_csv))
      (Main.menu ++ [Line (nl ++ "Zone Efficiency Scores:")%string;
                     Score "Zone1" NaN; Score "Zone2" NaN; Score "Zone3" NaN]) /\
  forall e out, Main.step (fst (Main.start idle_csv)) (Main.Entered 5)
                <> Main.Raised e out.
Proof.
  assert (E : zone_efficiency (Main.df (fst (Main.start idle_csv))) =
              [Line (nl ++ "Zone Efficiency Scores:")%string;
               Score "Zone1" NaN; Score "Zone2" NaN; Score "Zone3" NaN]).
  { unfold zone_efficiency. rewrite zone_scores_zero_means; [reflexivity|].
    apply idle_zone_avg. reflexivity. }
  assert (S : Main.step (fst (Main.start idle_csv)) (Main.Entered 5) =
              Main.Continue (fst (Main.start idle_csv))
                (Main.menu ++ zone_efficiency (Main.df (fst (Main.start idle_csv)))))
    by reflexivity.
  rewrite S, E. split; [reflexivity|discriminate].
Qed.

(** ** Demand balancing *)



(** ** The menu loop *)

Lemma step_keeps_no_risk (st st' : Main.session) (inp : Main.user_input)
      (out : list printed) :
  inp <> Main.Entered 4 ->
  Main.high_risk_hours st = None ->
  Main.step st inp = Main.Continue st' out ->
  Main.high_risk_hours st' = None.
Proof.
  intros H4 Hn Hs. destruct inp as [choice|]; [|discriminate Hs].
  unfold Main.step in Hs.
  destruct (choice =? 1)%Z; [injection Hs as <- _; exact Hn|].
  destruct (choice =? 2)%Z; [injection Hs as <- _; exact Hn|].
  destruct (choice =? 3)%Z; [injection Hs as <- _; exact Hn|].
  destruct (choice =? 4)%Z eqn:E4.
  { apply Z.eqb_eq in E4. subst choice. contradiction. }
  destruct (choice =? 5)%Z; [injection Hs as <- _; exact Hn|].
  destruct (choice =? 6)%Z; [injection Hs as <- _; exact Hn|].
  destruct (choice =? 7)%Z.
  { rewrite Hn in Hs. injection Hs as <- _; exact Hn. }
  destruct (choice =? 8)%Z; [discriminate Hs|].
  injection Hs as <- _; exact Hn.
Qed.

Lemma run_keeps_no_risk (inputs : list Main.user_input) :
  forall (st st' : Main.session) (out : list printed),
    ~ In (Main.Entered 4) inputs ->
    Main.high_risk_hours st = None ->
    Main.run st inputs = (Main.AtPrompt st', out) ->
    Main.high_risk_hours st' = None.
Proof.
  induction inputs as [|inp rest IH]; intros st st' out H4 Hn Hr.
  - simpl in Hr. injection Hr as <- _. exact Hn.
  - simpl in Hr. destruct (Main.step st inp) as [st1 out1| |] eqn:Es;
      try discriminate Hr.
    destruct (Main.run st1 rest) as [s out2] eqn:Er.
    injection Hr as -> _.
    apply (IH st1 st' out2).
    + intros Hin. apply H4. right. exact Hin.
    + apply (step_keeps_no_risk st st1 inp out1); auto.
      intros ->. apply H4. left. reflexivity.
    + exact Er.
Qed.

Lemma choice_7_without_risk (st : Main.session) :
  Main.high_risk_hours st = None ->
  Main.step st (Main.Entered 7) =
    Main.Continue st (Main.menu ++ [Line Main.run_risk_first_msg]).
Proof.
  intros H. unfold Main.step. cbn [Z.eqb Pos.eqb]. rewrite H. reflexivity.
Qed.

Lemma warning_is_no_recommendation :
  ~ In (Line shift_msg) (Main.menu ++ [Line Main.run_risk_first_msg]) /\
  ~ In (Line stagger_msg) (Main.menu ++ [Line Main.run_risk_first_msg]).
Proof.
  split; intros H; simpl in H;
    repeat (destruct H as [H|H]; try discriminate H); contradiction.
Qed.

(** C8 (as the script behaves). In a session started on any file, after any
    entries that do not include choice 4 and leave the loop at its prompt, the
    high-risk hours are still unset, and choice 7 raises nothing: it prints
    the menu and the warning "Run Peak Load Risk first", prints no
    recommendation, leaves the session as it was and returns to the prompt. *)
Theorem balancing_before_risk_warns (csv : list csv_row)
        (inputs : list Main.user_input) (st : Main.session) (out : list printed) :
  ~ In (Main.Entered 4) inputs ->
  Main.run (fst (Main.start csv)) inputs = (Main.AtPrompt st, out) ->
  Main.high_risk_hours st = None /\
  Main.step st (Main.Entered 7) =
    Main.Continue st (Main.menu ++ [Line Main.run_risk_first_msg]) /\
  (forall e o, Main.step st (Main.Entered 7) <> Main.Raised e o) /\
  ~ In (Line shift_msg) (Main.menu ++ [Line Main.run_risk_first_msg]) /\
  ~ In (Line stagger_msg) (Main.menu ++ [Line Main.run_risk_first_msg]).
Proof.
  intros H4 Hr.
  assert (Hn : Main.high_risk_hours st = None).
  { apply (run_keeps_no_risk inputs (fst (Main.start csv)) st out H4); [|exact Hr].
    reflexivity. }
  split; [exact Hn|].
  split; [apply choice_7_without_risk; exact Hn|].
  split; [|exact warning_is_no_recommendation].
  intros e o. rewrite choice_7_without_risk by exact Hn. discriminate.
Qed.

Lemma balancing_before_risk_warns_witness :
  exists (st : Main.session) (out : list printed),
    ~ In (Main.Entered 4) [Main.Entered 2; Main.Entered 9] /\
    Main.run (fst (Main.start flat_csv)) [Main.Entered 2; Main.Entered 9]
      = (Main.AtPrompt st, out) /\
    Main.step st (Main.Entered 7) =
      Main.Continue st (Main.menu ++ [Line Main.run_risk_first_msg]).
Proof.
  assert (H4 : ~ In (Main.Entered 4) [Main.Entered 2; Main.Entered 9]).
  { intros [H|[H|[]]]; discriminate H. }
  eexists. eexists. split; [exact H4|].
  split; [reflexivity|].
  eapply (balancing_before_risk_warns flat_csv _ _ _ H4). reflexivity.
Defined.

(** In a fresh session choice 7 goes back to the prompt. *)
Lemma fresh_choice_7_raises_nothing :
  Main.high_risk_hours (fst (Main.start flat_csv)) = None /\
  Main.step (fst (Main.start flat_csv)) (Main.Entered 7) =
    Main.Continue (fst (Main.start flat_csv))
      (Main.menu ++ [Line Main.run_risk_first_msg]) /\
  forall e out, Main.step (fst (Main.start flat_csv)) (Main.Entered 7)
                <> Main.Raised e out.
Proof.
  assert (Hn : Main.high_risk_hours (fst (Main.start flat_csv)) = None)
    by reflexivity.
  split; [exact Hn|]. rewrite (choice_7_without_risk _ Hn).
  split; [reflexivity|discriminate].
Qed.

(** ** Grouping by hour *)











Lemma std_undefined (l : list R) : (List.length l < 2)%nat -> std l = NaN.
Proof.
  destruct l as [|a [|b t]]; simpl; intros H; try reflexivity; lia.
Qed.

Lemma fadd_NaN_r (a : float) : fadd a NaN = NaN.
Proof. destruct a; reflexivity. Qed.

Lemma fgt_NaN_r (a : float) : fgt a NaN = false.
Proof. destruct a; reflexivity. Qed.


Lemma risk_profile :
  groupby_mean Z.compare Hour (rows (load_and_preprocess risk_csv)) =
    [(0%Z, (1 + 0 + 0 + 0) / 1); (1%Z, (0 + 1 + 0 + 0) / 1);
     (2%Z, (0 + 0 + 1 + 0) / 1); (3%Z, (4 + 0 + 0 + (2 + 2 + 2 + 0)) / (1 + 1))].
Proof. reflexivity. Qed.

Lemma risk_example :
  map fst (fst (peak_load_risk (load_and_preprocess risk_csv))) = [3%Z].
Proof.
  unfold peak_load_risk. rewrite risk_profile. cbn [map snd fst].
  rewrite (mean_value _ 2) by (try discriminate; arith).
  rewrite (std_value _ 2 2) by (try (simpl; lia); arith).
  cbn [filter fgt fadd snd]. decide_gt. reflexivity.
Qed.


(** * Further properties of the script *)

(** ** The preprocessed frame *)

Lemma insert_by_time_perm (r : csv_row) (l : list csv_row) :
  Permutation (r :: l) (insert_by_time r l).
Proof.
  induction l as [|x t IH]; simpl.
  - apply Permutation_refl.
  - destruct (csv_Datetime r <=? csv_Datetime x)%Z.
    + apply Permutation_refl.
    + apply perm_trans with (x :: r :: t); [apply perm_swap|].
      apply perm_skip. exact IH.
Qed.

Lemma sort_values_perm (l : list csv_row) : Permutation l (sort_values l).
Proof.
  induction l as [|x t IH]; simpl.
  - apply Permutation_refl.
  - apply perm_trans with (x :: sort_values t).
    + apply perm_skip. exact IH.
    + apply insert_by_time_perm.
Qed.

Lemma insert_by_time_sorted (r : csv_row) (l : list csv_row) :
  StronglySorted earlier l -> StronglySorted earlier (insert_by_time r l).
Proof.
  induction l as [|x t IH]; intros H; simpl.
  - constructor; constructor.
  - inversion H as [|? ? Ht Hx]; subst.
    destruct (Z.leb_spec (csv_Datetime r) (csv_Datetime x)) as [L|G].
    + constructor; [exact H|]. constructor; [exact L|].
      rewrite Forall_forall in *. intros z Hz. specialize (Hx z Hz).
      unfold earlier in *. lia.
    + constructor; [apply IH; exact Ht|].
      rewrite Forall_forall in *. intros z Hz.
      apply insert_by_time_In in Hz. destruct Hz as [->|Hz].
      * unfold earlier. lia.
      * apply Hx. exact Hz.
Qed.

Lemma sort_values_sorted (l : list csv_row) : StronglySorted earlier (sort_values l).
Proof.
  induction l as [|x t IH]; simpl.
  - constructor.
  - apply insert_by_time_sorted. exact IH.
Qed.

Lemma map_sorted {A B : Type} (f : A -> B) (P : A -> A -> Prop) (Q : B -> B -> Prop)
      (l : list A) :
  (forall a b, P a b -> Q (f a) (f b)) ->
  StronglySorted P l -> StronglySorted Q (map f l).
Proof.
  intros HPQ. induction l as [|x t IH]; intros H; simpl.
  - constructor.
  - inversion H as [|? ? Ht Hx]; subst. constructor; [apply IH; exact Ht|].
    rewrite Forall_forall in *. intros y Hy. apply in_map_iff in Hy.
    destruct Hy as [a [<- Ha]]. apply HPQ. apply Hx. exact Ha.
Qed.

(** X1. The rows of the preprocessed frame are the readings of the file, each
    one exactly once, in ascending order of instant. *)
Theorem load_and_preprocess_sorts (csv : list csv_row) :
  StronglySorted Z.le (column DateTime (load_and_preprocess csv)) /\
  Permutation (map derive csv) (rows (load_and_preprocess csv)) /\
  List.length (rows (load_and_preprocess csv)) = List.length csv.
Proof.
  split; [|split].
  - unfold column. simpl. rewrite map_map. simpl.
    apply (map_sorted csv_Datetime earlier Z.le); [auto|apply sort_values_sorted].
  - simpl. apply Permutation_map. apply sort_values_perm.
  - simpl. rewrite length_map. symmetry.
    apply Permutation_length. apply sort_values_perm.
Qed.

Lemma same_instant_same_row (l : list csv_row) (a b : csv_row) :
  NoDup (map csv_Datetime l) -> In a l -> In b l ->
  csv_Datetime a = csv_Datetime b -> a = b.
Proof.
  induction l as [|x t IH]; intros Hnd Ha Hb E; [contradiction|].
  simpl in Hnd. inversion Hnd as [|? ? Hx Ht]; subst.
  destruct Ha as [->|Ha], Hb as [->|Hb]; auto.
  - exfalso. apply Hx. rewrite E. apply in_map. exact Hb.
  - exfalso. apply Hx. rewrite <- E. apply in_map. exact Ha.
Qed.

Lemma sorted_perm_unique (l1 : list csv_row) :
  forall l2 : list csv_row,
    StronglySorted earlier l1 -> StronglySorted earlier l2 ->
    Permutation l1 l2 -> NoDup (map csv_Datetime l1) -> l1 = l2.
Proof.
  induction l1 as [|a t1 IH]; intros l2 H1 H2 Hp Hnd.
  - apply Permutation_nil in Hp. congruence.
  - destruct l2 as [|b t2].
    { apply Permutation_sym, Permutation_nil in Hp. discriminate. }
    inversion H1 as [|? ? Ht1 Ha]; subst.
    inversion H2 as [|? ? Ht2 Hb]; subst.
    assert (Hab : a = b).
    { assert (Ia : In a (b :: t2)) by (eapply Permutation_in; [exact Hp|left; auto]).
      assert (Ib : In b (a :: t1))
        by (eapply Permutation_in; [apply Permutation_sym; exact Hp|left; auto]).
      apply (same_instant_same_row (a :: t1)); auto; [left; auto|].
      rewrite Forall_forall in Ha, Hb. unfold earlier in *.
      assert (csv_Datetime a <= csv_Datetime b)%Z
        by (destruct Ib as [->|Ib]; [lia|apply Ha; exact Ib]).
      assert (csv_Datetime b <= csv_Datetime a)%Z
        by (destruct Ia as [->|Ia]; [lia|apply Hb; exact Ia]).
      lia. }
    subst b. f_equal. apply IH; auto.
    + eapply Permutation_cons_inv. exact Hp.
    + simpl in Hnd. inversion Hnd. assumption.
Qed.

(** X2. When the instants of the file are pairwise distinct, the frame does
    not depend on the order of the lines in the file. *)
Theorem load_and_preprocess_order_independent (csv csv' : list csv_row) :
  NoDup (map csv_Datetime csv) ->
  Permutation csv csv' ->
  load_and_preprocess csv = load_and_preprocess csv'.
Proof.
  intros Hnd Hp. unfold load_and_preprocess. f_equal. f_equal.
  apply sorted_perm_unique.
  - apply sort_values_sorted.
  - apply sort_values_sorted.
  - apply perm_trans with csv; [apply Permutation_sym, sort_values_perm|].
    apply perm_trans with csv'; [exact Hp|apply sort_values_perm].
  - apply (Permutation_NoDup (l := map csv_Datetime csv)); [|exact Hnd].
    apply Permutation_map. apply sort_values_perm.
Qed.

Lemma load_and_preprocess_order_independent_witness :
  load_and_preprocess
    [mk_csv_row ns_per_hour 1 1 1; mk_csv_row 0 2 0 0]
  = load_and_preprocess
      [mk_csv_row 0 2 0 0; mk_csv_row ns_per_hour 1 1 1].
Proof.
  apply load_and_preprocess_order_independent.
  - simpl. constructor.
    + intros [H|[]]. discriminate H.
    + constructor; [intros []|constructor].
  - apply perm_swap.
Defined.

(** X3. Every row of the preprocessed frame has an hour in 0..23 and a weekday
    in 0..6; it is a "Weekday" exactly when the weekday is below 5 and a
    "Weekend" exactly on weekdays 5 and 6; its total load is the sum of its
    three zone readings, hence non-negative when these are. *)
Theorem calendar_features (csv : list csv_row) (r : row) :
  In r (rows (load_and_preprocess csv)) ->
  (0 <= Hour r <= 23)%Z /\
  (0 <= Weekday r <= 6)%Z /\
  (Day_Type r = "Weekday" <-> (Weekday r < 5)%Z) /\
  (Day_Type r = "Weekend" <-> (Weekday r = 5 \/ Weekday r = 6)%Z) /\
  Total_Load r =
    PowerConsumption_Zone1 r + PowerConsumption_Zone2 r + PowerConsumption_Zone3 r /\
  (0 <= PowerConsumption_Zone1 r -> 0 <= PowerConsumption_Zone2 r ->
   0 <= PowerConsumption_Zone3 r -> 0 <= Total_Load r).
Proof.
  intros H. apply preprocessed_row in H. destruct H as [c [_ ->]].
  assert (Hh : (0 <= dt_hour (csv_Datetime c) < 24)%Z)
    by (unfold dt_hour; apply Z.mod_pos_bound; lia).
  assert (Hw : (0 <= dt_weekday (csv_Datetime c) < 7)%Z)
    by (unfold dt_weekday; apply Z.mod_pos_bound; lia).
  cbn [derive Hour Weekday Day_Type Total_Load PowerConsumption_Zone1
       PowerConsumption_Zone2 PowerConsumption_Zone3].
  split; [lia|]. split; [lia|].
  destruct (Z.ltb_spec (dt_weekday (csv_Datetime c)) 5) as [L|G].
  - repeat split; try reflexivity; try lia; try discriminate; intros; lra.
  - repeat split; try reflexivity; try lia; try discriminate; intros; lra.
Qed.

Lemma calendar_features_witness :
  In (derive (mk_csv_row (18 * ns_per_hour) 4 5 6))
     (rows (load_and_preprocess boundary_csv)) /\
  Day_Type (derive (mk_csv_row (18 * ns_per_hour) 4 5 6)) = "Weekday".
Proof.
  assert (H : In (derive (mk_csv_row (18 * ns_per_hour) 4 5 6))
                 (rows (load_and_preprocess boundary_csv))).
  { apply preprocessed_row. eexists. split; [|reflexivity].
    simpl. right. left. reflexivity. }
  split; [exact H|].
  destruct (calendar_features boundary_csv _ H) as [_ [_ [Hd _]]].
  apply Hd. reflexivity.
Defined.

(** ** Peak and Off-Peak rows *)

Lemma filter_split_length {A : Type} (p q : A -> bool) (l : list A) :
  (forall x, In x l -> q x = negb (p x)) ->
  (List.length (filter p l) + List.length (filter q l) = List.length l)%nat.
Proof.
  induction l as [|x t IH]; intros H; simpl; [reflexivity|].
  rewrite (H x) by (simpl; auto).
  assert (IH' := IH (fun y Hy => H y (or_intror Hy))).
  destruct (p x); simpl; lia.
Qed.

Lemma filter_split_sum (f : row -> R) (p q : row -> bool) (l : list row) :
  (forall x, In x l -> q x = negb (p x)) ->
  Rsum (map f (filter p l)) + Rsum (map f (filter q l)) = Rsum (map f l).
Proof.
  induction l as [|x t IH]; intros H; simpl; [lra|].
  rewrite (H x) by (simpl; auto).
  assert (IH' := IH (fun y Hy => H y (or_intror Hy))).
  destruct (p x); simpl; unfold Rsum in *; lra.
Qed.

Lemma off_peak_is_not_peak (csv : list csv_row) (r : row) :
  In r (rows (load_and_preprocess csv)) ->
  String.eqb (Peak_Type r) "Off-Peak" = negb (String.eqb (Peak_Type r) "Peak").
Proof.
  intros H. apply preprocessed_row in H. destruct H as [c [_ ->]].
  destruct (derive_peak_or_off c) as [E|E]; rewrite E; reflexivity.
Qed.

(** X4. In the preprocessed frame the Peak rows and the Off-Peak rows, the two
    selections that [demand_balancing] averages, split the frame: together
    they count every row once and their total loads add up to the total load
    of the frame. *)
Theorem peak_off_peak_split (csv : list csv_row) :
  let df := load_and_preprocess csv in
  let peak := filter (fun r => String.eqb (Peak_Type r) "Peak") (rows df) in
  let off_peak := filter (fun r => String.eqb (Peak_Type r) "Off-Peak") (rows df) in
  (List.length peak + List.length off_peak = List.length csv)%nat /\
  Rsum (map Total_Load peak) + Rsum (map Total_Load off_peak)
  = Rsum (column Total_Load df) /\
  (forall r, In r (rows df) -> In r peak /\ ~ In r off_peak \/
                               In r off_peak /\ ~ In r peak).
Proof.
  intros df peak off_peak.
  assert (Hn : forall r, In r (rows df) ->
                         String.eqb (Peak_Type r) "Off-Peak"
                         = negb (String.eqb (Peak_Type r) "Peak"))
    by (intros r Hr; apply (off_peak_is_not_peak csv); exact Hr).
  split; [|split].
  - unfold peak, off_peak. rewrite filter_split_length by exact Hn.
    unfold df. simpl. rewrite length_map. symmetry.
    apply Permutation_length, sort_values_perm.
  - unfold peak, off_peak. apply filter_split_sum. exact Hn.
  - intros r Hr. unfold peak, off_peak. rewrite !filter_In, (Hn r Hr).
    destruct (String.eqb (Peak_Type r) "Peak"); simpl.
    + left. split; [auto|]. intros [_ H]. discriminate H.
    + right. split; [auto|]. intros [_ H]. discriminate H.
Qed.

(** ** Grouping by a two-valued label *)

Lemma string_compare_refl (a : string) : String.compare a a = Eq.
Proof.
  pose proof (String.compare_antisym a a) as H.
  destruct (String.compare a a); try reflexivity; discriminate H.
Qed.

Lemma same_key_string (x y : string) :
  same_key String.compare x y = String.eqb x y.
Proof.
  unfold same_key. destruct (String.eqb_spec x y) as [->|N].
  - rewrite string_compare_refl. reflexivity.
  - destruct (String.compare x y) eqn:E; try reflexivity.
    apply String.compare_eq_iff in E. contradiction.
Qed.

Lemma existsb_occurs (a : string) (key : row -> string) (l : list row) :
  existsb (String.eqb a) (map key l) = occurs a key l.
Proof.
  unfold occurs. induction l as [|x t IH]; simpl; [reflexivity|].
  rewrite (String.eqb_sym a (key x)).
  destruct (String.eqb (key x) a); simpl; [reflexivity|exact IH].
Qed.

Section TwoLabels.
Variables a b : string.
Hypothesis a_before_b : String.compare a b = Lt.

Lemma b_after_a : String.compare b a = Gt.
Proof.
  rewrite String.compare_antisym, a_before_b. reflexivity.
Qed.

Lemma a_is_not_b : String.eqb a b = false.
Proof.
  apply String.eqb_neq. intros E. rewrite E, string_compare_refl in a_before_b.
  discriminate.
Qed.

Lemma two_label_keys (l : list string) :
  (forall x, In x l -> x = a \/ x = b) ->
  group_keys String.compare l =
    (if existsb (String.eqb a) l then [a] else [])
    ++ (if existsb (String.eqb b) l then [b] else []).
Proof.
  pose proof b_after_a as Hba. pose proof a_is_not_b as Hne.
  assert (Hne' : String.eqb b a = false) by (rewrite String.eqb_sym; exact Hne).
  induction l as [|x t IH]; intros H; [reflexivity|].
  simpl. rewrite IH by (intros y Hy; apply H; right; exact Hy).
  destruct (H x (or_introl eq_refl)) as [->| ->].
  - rewrite String.eqb_refl, Hne'. simpl.
    destruct (existsb (String.eqb a) t), (existsb (String.eqb b) t); simpl;
      rewrite ?string_compare_refl, ?a_before_b; reflexivity.
  - rewrite String.eqb_refl, Hne. simpl.
    destruct (existsb (String.eqb a) t), (existsb (String.eqb b) t); simpl;
      rewrite ?Hba, ?string_compare_refl; reflexivity.
Qed.

(** The series printed for a column that only holds the labels [a] and [b]:
    the entry of [a], if [a] occurs, then the entry of [b], if [b] occurs. *)
Lemma two_label_series (key : row -> string) (l : list row) :
  (forall r, In r l -> key r = a \/ key r = b) ->
  groupby_mean String.compare key l =
    (let g := map Total_Load (filter (fun r => String.eqb (key r) a) l) in
     if occurs a key l then [(a, Rsum g / INR (List.length g))] else [])
    ++
    (let g := map Total_Load (filter (fun r => String.eqb (key r) b) l) in
     if occurs b key l then [(b, Rsum g / INR (List.length g))] else []).
Proof.
  intros H. unfold groupby_mean, group.
  assert (F : forall k, filter (fun r => same_key String.compare (key r) k) l
                        = filter (fun r => String.eqb (key r) k) l)
    by (intros k; apply filter_ext; intros r; apply same_key_string).
  rewrite two_label_keys.
  - rewrite !existsb_occurs, map_app. f_equal.
    + destruct (occurs a key l); [|reflexivity]. cbn [map]. rewrite F. reflexivity.
    + destruct (occurs b key l); [|reflexivity]. cbn [map]. rewrite F. reflexivity.
  - intros x Hx. apply in_map_iff in Hx. destruct Hx as [r [<- Hr]]. apply H. exact Hr.
Qed.

End TwoLabels.

Lemma occurs_series (a : string) (key : row -> string) (l : list row) :
  (let g := map Total_Load (filter (fun r => String.eqb (key r) a) l) in
   if occurs a key l then [(a, Rsum g / INR (List.length g))] else [])
  = series_entry a (map Total_Load (filter (fun r => String.eqb (key r) a) l)).
Proof.
  unfold occurs, series_entry. destruct (filter (fun r => String.eqb (key r) a) l); reflexivity.
Qed.

Lemma entry_iff_mean (a : string) (g : list R) (rest : list (string * R)) (v : R) :
  (forall w, ~ In (a, w) rest) ->
  In (a, v) (series_entry a g ++ rest) <-> mean g = Fin v.
Proof.
  intros Hr. unfold series_entry. rewrite in_app_iff. destruct g as [|x t].
  - simpl. split; [intros [[]|H]; exfalso; eapply Hr; exact H|discriminate].
  - unfold mean. split.
    + intros [[E|[]]|H]; [injection E as <-; reflexivity|exfalso; eapply Hr; exact H].
    + intros E. injection E as <-. left. left. reflexivity.
Qed.

(** X5. Choice 1 on the preprocessed frame prints its heading and a series of
    at most two entries: the Off-Peak mean first, then the Peak mean, each one
    present only if rows of that kind exist (a kind without rows is left out,
    not reported as zero).  The values are the very means that
    [demand_balancing] compares. *)
Theorem peak_offpeak_analysis_series (csv : list csv_row) :
  let df := load_and_preprocess csv in
  let peak := map Total_Load
                (filter (fun r => String.eqb (Peak_Type r) "Peak") (rows df)) in
  let off_peak := map Total_Load
                    (filter (fun r => String.eqb (Peak_Type r) "Off-Peak") (rows df)) in
  exists series : list (string * R),
    peak_offpeak_analysis df =
      [Line (nl ++ "Average Load (Peak vs Off-Peak)")%string; LabelSeries series] /\
    series =
      series_entry "Off-Peak" off_peak
      ++ series_entry "Peak" peak /\
    (forall v, In ("Peak", v) series <-> peak_mean df = Fin v) /\
    (forall v, In ("Off-Peak", v) series <-> off_peak_mean df = Fin v).
Proof.
  intros df peak off_peak.
  assert (S : groupby_mean String.compare Peak_Type (rows df) =
              series_entry "Off-Peak" off_peak
              ++ series_entry "Peak" peak).
  { rewrite (two_label_series "Off-Peak" "Peak") by
      (try reflexivity; intros r Hr; apply preprocessed_row in Hr;
       destruct Hr as [c [_ ->]]; destruct (derive_peak_or_off c); auto).
    rewrite !occurs_series. reflexivity. }
  eexists. split; [unfold peak_offpeak_analysis; rewrite S; reflexivity|].
  split; [reflexivity|]. split; intros v.
  - unfold peak_mean. fold peak. rewrite <- (entry_iff_mean "Peak" peak [] v)
      by (intros w []).
    rewrite app_nil_r, in_app_iff. split; [|auto].
    intros [H|H]; [|exact H]. unfold series_entry in H.
    destruct off_peak; [destruct H|]. destruct H as [H|[]]. discriminate H.
  - unfold off_peak_mean. fold off_peak. apply entry_iff_mean.
    intros w H. unfold series_entry in H.
    destruct peak; [destruct H|]. destruct H as [H|[]]. discriminate H.
Qed.

Lemma derive_weekday_or_weekend (c : csv_row) :
  Day_Type (derive c) = "Weekday" \/ Day_Type (derive c) = "Weekend".
Proof.
  simpl. destruct (dt_weekday (csv_Datetime c) <? 5)%Z; auto.
Qed.

(** X6. Choice 3 on the preprocessed frame prints its heading and a series of
    at most two entries: the mean total load of the rows falling on weekdays
    0..4 first, labelled Weekday, then that of the rows on weekdays 5 and 6,
    labelled Weekend; a kind without rows is left out. *)
Theorem weekday_weekend_series (csv : list csv_row) :
  let df := load_and_preprocess csv in
  let weekday := map Total_Load (filter (fun r => (Weekday r <? 5)%Z) (rows df)) in
  let weekend := map Total_Load (filter (fun r => (5 <=? Weekday r)%Z) (rows df)) in
  weekday_weekend df =
    [Line (nl ++ "Weekday vs Weekend Load")%string;
     LabelSeries
       (series_entry "Weekday" weekday
        ++ series_entry "Weekend" weekend)].
Proof.
  intros df weekday weekend.
  assert (F1 : filter (fun r => String.eqb (Day_Type r) "Weekday") (rows df)
               = filter (fun r => (Weekday r <? 5)%Z) (rows df)).
  { apply filter_ext_in. intros r Hr. apply preprocessed_row in Hr.
    destruct Hr as [c [_ ->]]. simpl.
    destruct (dt_weekday (csv_Datetime c) <? 5)%Z; reflexivity. }
  assert (F2 : filter (fun r => String.eqb (Day_Type r) "Weekend") (rows df)
               = filter (fun r => (5 <=? Weekday r)%Z) (rows df)).
  { apply filter_ext_in. intros r Hr. apply preprocessed_row in Hr.
    destruct Hr as [c [_ ->]]. simpl.
    destruct (Z.ltb_spec (dt_weekday (csv_Datetime c)) 5),
             (Z.leb_spec 5 (dt_weekday (csv_Datetime c))); try reflexivity; lia. }
  unfold weekday_weekend.
  rewrite (two_label_series "Weekday" "Weekend") by
    (try reflexivity; intros r Hr; apply preprocessed_row in Hr;
     destruct Hr as [c [_ ->]]; destruct (derive_weekday_or_weekend c); auto).
  rewrite !occurs_series, F1, F2. reflexivity.
Qed.

(** ** Wastage detection at the edges *)

Lemma some_value_not_above_mean (l : list R) :
  l <> [] -> exists v, In v l /\ v <= Rsum l / INR (List.length l).
Proof.
  intros Hne. set (m := Rsum l / INR (List.length l)).
  assert (D : forall t : list R,
             (exists v, In v t /\ v <= m) \/
             (t <> [] -> Rsum t > INR (List.length t) * m) /\
             (forall v, In v t -> v > m)).
  { induction t as [|x t IH].
    - right. split; [congruence|intros v []].
    - destruct (Rle_lt_dec x m) as [L|G].
      + left. exists x. split; [left; reflexivity|exact L].
      + destruct IH as [[v [Hv Lv]]|[Hs Ha]].
        * left. exists v. split; [right; exact Hv|exact Lv].
        * right. split.
          -- intros _. change (Rsum (x :: t)) with (x + Rsum t).
             change (List.length (x :: t)) with (S (List.length t)).
             rewrite S_INR. destruct t as [|y t'].
             ++ simpl. lra.
             ++ assert (Rsum (y :: t') > INR (List.length (y :: t')) * m)
                  by (apply Hs; discriminate).
                lra.
          -- intros v [<-|Hv]; [lra|apply Ha; exact Hv]. }
  destruct (D l) as [E|[Hs _]]; [exact E|].
  exfalso. specialize (Hs Hne). unfold m in Hs.
  assert (0 < INR (List.length l)).
  { apply lt_0_INR. destruct l; [congruence|simpl; lia]. }
  replace (INR (List.length l) * (Rsum l / INR (List.length l))) with (Rsum l) in Hs
    by (field; lra).
  lra.
Qed.

Lemma count_true_lt {A : Type} (f : A -> bool) (l : list A) (v : A) :
  In v l -> f v = false -> (count_true (map f l) < List.length l)%nat.
Proof.
  induction l as [|x t IH]; intros Hin Hf; [contradiction|].
  pose proof (count_true_le (map f t)) as Hle. rewrite length_map in Hle.
  unfold count_true in *. simpl. destruct Hin as [->|Hin].
  - rewrite Hf. simpl. lia.
  - specialize (IH Hin Hf). destruct (f x); simpl; lia.
Qed.

Lemma count_true_all_false {A : Type} (l : list A) :
  count_true (map (fun _ => false) l) = 0%nat.
Proof.
  unfold count_true. induction l; simpl; auto.
Qed.

(** X7. On a frame of fewer than two rows the standard deviation is undefined:
    [wastage_detection] returns [NaN] for it (and, on the empty frame, for the
    mean too; on a one-row frame the mean is that row's load), flags no row and
    prints a count of 0. *)
Theorem wastage_detection_short_frame (df : frame) :
  (List.length (rows df) < 2)%nat ->
  exists m : float,
    wastage_detection df =
      ((m, NaN),
       with_Wastage_Anomaly df (map (fun _ => false) (rows df)),
       [Count (nl ++ "Total Wastage Events:")%string 0%nat]) /\
    (rows df = [] -> m = NaN) /\
    (forall r, rows df = [r] -> m = Fin (Total_Load r)).
Proof.
  intros H. unfold wastage_detection, column.
  destruct (rows df) as [|r [|r' t]] eqn:E; simpl in H; try lia.
  - exists NaN. repeat split; try reflexivity. intros r Hr. discriminate Hr.
  - exists (Fin (Total_Load r)). cbn [map mean std Rsum fold_right List.length INR].
    replace ((Total_Load r + 0) / 1) with (Total_Load r) by lra.
    repeat split; try reflexivity; try discriminate.
    intros r0 Hr. injection Hr as ->. reflexivity.
Qed.

Lemma wastage_detection_short_frame_witness :
  (List.length (rows (load_and_preprocess zone_example_csv)) < 2)%nat /\
  snd (fst (fst (wastage_detection (load_and_preprocess zone_example_csv)))) = NaN.
Proof.
  assert (H : (List.length (rows (load_and_preprocess zone_example_csv)) < 2)%nat)
    by (simpl; lia).
  split; [exact H|].
  destruct (wastage_detection_short_frame _ H) as [m [E _]].
  rewrite E. reflexivity.
Defined.

(** X8. On a non-empty frame [wastage_detection] never flags every row: the
    count it prints is strictly below the number of rows.  A flagged row has a
    total load strictly above the mean. *)
Theorem wastage_detection_spares_a_row (df : frame) :
  rows df <> [] ->
  exists flags : list bool,
    Wastage_Anomaly (snd (fst (wastage_detection df))) = Some flags /\
    snd (wastage_detection df) =
      [Count (nl ++ "Total Wastage Events:")%string (count_true flags)] /\
    (count_true flags < List.length (rows df))%nat /\
    (forall i x, nth_error (column Total_Load df) i = Some x ->
                 nth_error flags i = Some true ->
                 exists m, fst (fst (fst (wastage_detection df))) = Fin m /\ x > m).
Proof.
  intros Hne. unfold wastage_detection.
  cbn [fst snd with_Wastage_Anomaly Wastage_Anomaly].
  eexists. split; [reflexivity|]. split; [reflexivity|].
  set (x := column Total_Load df).
  assert (Hx : x <> []).
  { unfold x, column. destruct (rows df); [congruence|discriminate]. }
  assert (Hlen : List.length x = List.length (rows df))
    by (unfold x, column; apply length_map).
  destruct (le_lt_dec 2 (List.length x)) as [H2|H1].
  - rewrite (mean_nonempty x Hx), (std_two_or_more x H2).
    cbn [fmul fadd fst].
    set (m := Rsum x / INR (List.length x)).
    set (s := sqrt (Rsum (map (fun v => (v - m) ^ 2) x) / (INR (List.length x) - 1))).
    assert (Hs : 0 <= s) by apply sqrt_pos.
    split.
    + destruct (some_value_not_above_mean x Hx) as [v [Hv Lv]]. fold m in Lv.
      rewrite <- Hlen. apply (count_true_lt _ x v Hv).
      cbn [fgt]. apply Rgtb_false. lra.
    + intros i v Hv Hf. exists m. split; [reflexivity|].
      rewrite nth_error_map, Hv in Hf. cbn [option_map fgt] in Hf.
      injection Hf as Hf. apply Rgtb_true in Hf. lra.
  - rewrite (std_undefined x H1).
    assert (F : map (fun v => fgt (Fin v) (fadd (mean x) (fmul (Fin 2) NaN))) x
                = map (fun _ => false) x).
    { apply map_ext. intros v. cbn [fmul]. rewrite fadd_NaN_r. reflexivity. }
    rewrite F. split.
    + rewrite count_true_all_false. destruct (rows df); [congruence|simpl; lia].
    + intros i v Hv Hf. rewrite nth_error_map, Hv in Hf. discriminate Hf.
Qed.

Lemma wastage_detection_spares_a_row_witness :
  rows (load_and_preprocess spike_csv) <> [] /\
  exists flags : list bool,
    Wastage_Anomaly (snd (fst (wastage_detection (load_and_preprocess spike_csv))))
    = Some flags /\
    (count_true flags < 7)%nat.
Proof.
  assert (H : rows (load_and_preprocess spike_csv) <> []) by discriminate.
  split; [exact H|].
  destruct (wastage_detection_spares_a_row _ H) as [flags [E [_ [L _]]]].
  exists flags. split; [exact E|exact L].
Defined.

(** ** Statistical anomalies *)

Lemma quotient_above (a s c : R) : s > 0 -> (a / s > c <-> a > c * s).
Proof.
  intros Hs. assert (E : a = a / s * s) by (field; lra). split; intros H.
  - rewrite E. apply Rmult_gt_compat_r; assumption.
  - apply (Rmult_lt_reg_r s); [lra|]. rewrite <- E. lra.
Qed.

Lemma quotient_below (a s c : R) : s > 0 -> (a / s < c <-> a < c * s).
Proof.
  intros Hs. assert (E : a = a / s * s) by (field; lra). split; intros H.
  - rewrite E. apply Rmult_lt_compat_r; assumption.
  - apply (Rmult_lt_reg_r s); [lra|]. rewrite <- E. lra.
Qed.

(** X9. With a finite mean [m] and a deviation [s > 0], [statistical_anomaly]
    flags a row exactly when its total load lies outside the band
    [m - 2.5 s .. m + 2.5 s], on either side. *)
Theorem statistical_anomaly_two_sided (df : frame) (m s : R) :
  s > 0 ->
  exists flags : list bool,
    Stat_Anomaly (fst (statistical_anomaly df (Fin m) (Fin s))) = Some flags /\
    snd (statistical_anomaly df (Fin m) (Fin s)) =
      [Count "Statistical Anomalies:" (count_true flags)] /\
    forall i x, nth_error (column Total_Load df) i = Some x ->
      (nth_error flags i = Some true <->
       x > m + 5 / 2 * s \/ x < m - 5 / 2 * s).
Proof.
  intros Hs. eexists. split; [reflexivity|]. split; [reflexivity|].
  intros i x Hx.
  rewrite (stat_flags_entry _ i _ (z_scores_entry df (Fin m) (Fin s) i x Hx)).
  change (fsub (Fin x) (Fin m)) with (Fin (x - m)).
  rewrite fdiv_nonzero by lra. apply Some_true_iff. cbn [fabs fgt].
  rewrite Rgtb_true.
  pose proof (quotient_above (x - m) s (5 / 2) Hs) as Ha.
  pose proof (quotient_below (x - m) s (- (5 / 2)) Hs) as Hb.
  unfold Rabs. destruct (Rcase_abs ((x - m) / s)) as [N|P]; split; intros H.
  - right. assert ((x - m) / s < - (5 / 2)) by lra. apply Hb in H0. lra.
  - destruct H as [H|H].
    + assert ((x - m) / s > 5 / 2) by (apply Ha; lra). lra.
    + assert ((x - m) / s < - (5 / 2)) by (apply Hb; lra). lra.
  - left. apply Ha in H. lra.
  - destruct H as [H|H].
    + apply Ha. lra.
    + assert ((x - m) / s < - (5 / 2)) by (apply Hb; lra). lra.
Qed.

Lemma statistical_anomaly_two_sided_witness :
  4 > 0 /\
  exists flags : list bool,
    Stat_Anomaly (fst (statistical_anomaly (load_and_preprocess spike_csv)
                         (Fin 2) (Fin 4))) = Some flags /\
    (nth_error flags 6 = Some true <->
     5 + 4 + 2 > 2 + 5 / 2 * 4 \/ 5 + 4 + 2 < 2 - 5 / 2 * 4).
Proof.
  assert (H : 4 > 0) by lra. split; [exact H|].
  destruct (statistical_anomaly_two_sided (load_and_preprocess spike_csv) 2 4 H)
    as [flags [E [_ F]]].
  exists flags. split; [exact E|]. apply (F 6%nat). reflexivity.
Defined.

Lemma fdiv_NaN_r (a : float) : fdiv a NaN = NaN.
Proof. destruct a; reflexivity. Qed.

(** X10. When the mean or the deviation handed to [statistical_anomaly] is
    undefined ([NaN], as [wastage_detection] returns on a frame of fewer than
    two rows), every z-score is [NaN], no row is flagged and the printed count
    is 0. *)
Theorem statistical_anomaly_undefined_baseline (df : frame) (m s : float) :
  m = NaN \/ s = NaN ->
  exists df' : frame,
    statistical_anomaly df m s = (df', [Count "Statistical Anomalies:" 0%nat]) /\
    rows df' = rows df /\
    Z_Score df' = Some (map (fun _ => NaN) (rows df)) /\
    Stat_Anomaly df' = Some (map (fun _ => false) (rows df)).
Proof.
  intros H.
  assert (Z : z_scores df m s = map (fun _ => NaN) (rows df)).
  { unfold z_scores, column. rewrite map_map. apply map_ext. intros r.
    destruct H as [-> | ->]; [reflexivity|apply fdiv_NaN_r]. }
  assert (F : stat_flags (z_scores df m s) = map (fun _ => false) (rows df)).
  { rewrite Z. unfold stat_flags. rewrite map_map. reflexivity. }
  unfold statistical_anomaly. rewrite F, Z, count_true_all_false.
  eexists. split; [reflexivity|]. repeat split; reflexivity.
Qed.

Lemma statistical_anomaly_undefined_baseline_witness :
  exists df' : frame,
    statistical_anomaly (load_and_preprocess zone_example_csv) (Fin 230) NaN
    = (df', [Count "Statistical Anomalies:" 0%nat]).
Proof.
  destruct (statistical_anomaly_undefined_baseline
              (load_and_preprocess zone_example_csv) (Fin 230) NaN
              (or_intror eq_refl)) as [df' [E _]].
  exists df'. exact E.
Defined.

(** ** Rolling means stay within the data *)

Lemma Rsum_bounds (a b : R) (l : list R) :
  (forall v, In v l -> a <= v <= b) ->
  INR (List.length l) * a <= Rsum l <= INR (List.length l) * b.
Proof.
  induction l as [|x t IH]; intros H.
  - simpl. lra.
  - change (Rsum (x :: t)) with (x + Rsum t).
    change (List.length (x :: t)) with (S (List.length t)). rewrite S_INR.
    assert (a <= x <= b) by (apply H; left; reflexivity).
    assert (INR (List.length t) * a <= Rsum t <= INR (List.length t) * b)
      by (apply IH; intros v Hv; apply H; right; exact Hv).
    lra.
Qed.

Lemma rolling_mean_bounds (w : nat) (l : list R) (a b : R) (i : nat) (v : R) :
  (0 < w)%nat ->
  (forall x, In x l -> a <= x <= b) ->
  nth_error (rolling_mean w l) i = Some (Fin v) -> a <= v <= b.
Proof.
  intros H0 Hb Hv.
  assert (Hi : (i < List.length l)%nat).
  { rewrite <- (rolling_mean_length w l). apply nth_error_Some. congruence. }
  destruct (Nat.ltb_spec (S i) w) as [Hw|Hw].
  - rewrite rolling_mean_undefined in Hv by assumption. discriminate Hv.
  - rewrite rolling_mean_defined in Hv by assumption.
    assert (E : Rsum (skipn (S i - w) (firstn (S i) l)) / INR w = v) by congruence.
    pose proof (Rsum_bounds a b (skipn (S i - w) (firstn (S i) l))) as B.
    rewrite window_length in B by assumption.
    assert (0 < INR w) by (apply lt_0_INR; exact H0).
    destruct B as [B1 B2]; [intros x Hx; apply Hb; eapply In_window; exact Hx|].
    rewrite <- E. split.
    + apply (Rmult_le_reg_r (INR w)); [assumption|].
      replace (Rsum (skipn (S i - w) (firstn (S i) l)) / INR w * INR w)
        with (Rsum (skipn (S i - w) (firstn (S i) l))) by (field; lra).
      lra.
    + apply (Rmult_le_reg_r (INR w)); [assumption|].
      replace (Rsum (skipn (S i - w) (firstn (S i) l)) / INR w * INR w)
        with (Rsum (skipn (S i - w) (firstn (S i) l))) by (field; lra).
      lra.
Qed.

(** X11. The rolling averages smooth without overshooting: if every total load
    of the frame lies between [a] and [b], so does every defined entry of
    [Rolling_7] and of [Rolling_30]. *)
Theorem rolling_trend_within_bounds (df : frame) (a b : R) :
  (forall v, In v (column Total_Load df) -> a <= v <= b) ->
  forall (r : list float) (i : nat) (v : R),
    Rolling_7 (rolling_trend df) = Some r \/ Rolling_30 (rolling_trend df) = Some r ->
    nth_error r i = Some (Fin v) ->
    a <= v <= b.
Proof.
  intros Hb r i v [Hr|Hr] Hv; simpl in Hr; injection Hr as <-.
  - apply (rolling_mean_bounds 7 (column Total_Load df) a b i v); auto. lia.
  - apply (rolling_mean_bounds 30 (column Total_Load df) a b i v); auto. lia.
Qed.

Lemma rolling_trend_within_bounds_witness :
  exists v : R,
    nth_error (rolling_mean 7 (column Total_Load (load_and_preprocess spike_csv))) 6
    = Some (Fin v) /\
    0 <= v <= 11.
Proof.
  eexists. split; [reflexivity|].
  apply (rolling_trend_within_bounds (load_and_preprocess spike_csv) 0 11)
    with (r := rolling_mean 7 (column Total_Load (load_and_preprocess spike_csv)))
         (i := 6%nat).
  - intros x Hx. simpl in Hx.
    repeat (destruct Hx as [<-|Hx]; [lra|]). contradiction.
  - left. reflexivity.
  - reflexivity.
Defined.

(** ** How many hours can be high-risk *)






(** ** The range and the order of the zone scores *)

Lemma Int_part_bounds (r : R) : IZR (Int_part r) <= r < IZR (Int_part r) + 1.
Proof.
  pose proof (base_fp r) as [H0 H1]. unfold frac_part in *. lra.
Qed.

Lemma Rrint_between (r : R) : (Int_part r <= Rrint r <= Int_part r + 1)%Z.
Proof.
  unfold Rrint. destruct (total_order_T (frac_part r) (1 / 2)) as [[H|H]|H];
    try destruct (Z.even (Int_part r)); lia.
Qed.

Lemma Rrint_mono (r r' : R) : r <= r' -> (Rrint r <= Rrint r')%Z.
Proof.
  intros H. pose proof (Int_part_bounds r) as B. pose proof (Int_part_bounds r') as B'.
  assert (Hf : (Int_part r <= Int_part r')%Z).
  { apply Z.lt_succ_r. apply lt_IZR. unfold Z.succ. rewrite plus_IZR. lra. }
  pose proof (Rrint_between r) as Hb. pose proof (Rrint_between r') as Hb'.
  destruct (Z.eq_dec (Int_part r) (Int_part r')) as [E|N]; [|lia].
  assert (Hfr : frac_part r <= frac_part r') by (unfold frac_part; rewrite E; lra).
  clear Hb Hb'. unfold Rrint. rewrite E.
  destruct (total_order_T (frac_part r) (1 / 2)) as [[C1|C1]|C1];
    destruct (total_order_T (frac_part r') (1 / 2)) as [[C2|C2]|C2];
    try destruct (Z.even (Int_part r')); try lia; lra.
Qed.

Lemma Rround_2_mono (r r' : R) : r <= r' -> Rround r 2 <= Rround r' 2.
Proof.
  intros H. unfold Rround. replace (10 ^ 2) with 100 by (simpl; lra).
  assert (IZR (Rrint (r * 100)) <= IZR (Rrint (r' * 100))).
  { apply IZR_le. apply Rrint_mono. lra. }
  lra.
Qed.

Lemma zone_scores_formula (df : frame) :
  rows df <> [] ->
  let n := INR (List.length (rows df)) in
  let m1 := Rsum (column PowerConsumption_Zone1 df) / n in
  let m2 := Rsum (column PowerConsumption_Zone2 df) / n in
  let m3 := Rsum (column PowerConsumption_Zone3 df) / n in
  let M := Rmax (Rmax m1 m2) m3 in
  M <> 0 ->
  zone_scores df =
    [("Zone1", Fin (Rround (100 - m1 / M * 40) 2));
     ("Zone2", Fin (Rround (100 - m2 / M * 40) 2));
     ("Zone3", Fin (Rround (100 - m3 / M * 40) 2))].
Proof.
  intros Hne n m1 m2 m3 M HM.
  unfold zone_scores, max_load, zone_avg. rewrite !column_mean by exact Hne.
  cbn [map fst snd]. rewrite py_max_three. fold n m1 m2 m3 M.
  rewrite !score_value by exact HM. reflexivity.
Qed.

(** X13. On a non-empty frame of non-negative readings whose largest zone mean
    is positive, every zone score lies between 60 and 100, and a zone with a
    lower mean load never gets a lower score than a zone with a higher one. *)
Theorem zone_scores_range_and_order (df : frame) :
  rows df <> [] ->
  (forall r, In r (rows df) ->
             0 <= PowerConsumption_Zone1 r /\
             0 <= PowerConsumption_Zone2 r /\
             0 <= PowerConsumption_Zone3 r) ->
  let n := INR (List.length (rows df)) in
  let m1 := Rsum (column PowerConsumption_Zone1 df) / n in
  let m2 := Rsum (column PowerConsumption_Zone2 df) / n in
  let m3 := Rsum (column PowerConsumption_Zone3 df) / n in
  0 < Rmax (Rmax m1 m2) m3 ->
  exists s1 s2 s3 : R,
    zone_scores df = [("Zone1", Fin s1); ("Zone2", Fin s2); ("Zone3", Fin s3)] /\
    (forall ms, In ms [(m1, s1); (m2, s2); (m3, s3)] -> 60 <= snd ms <= 100) /\
    (forall a b, In a [(m1, s1); (m2, s2); (m3, s3)] ->
                 In b [(m1, s1); (m2, s2); (m3, s3)] ->
                 fst a <= fst b -> snd b <= snd a).
Proof.
  intros Hne Hpos n m1 m2 m3 HM.
  set (M := Rmax (Rmax m1 m2) m3) in *.
  set (sc := fun m => Rround (100 - m / M * 40) 2).
  exists (sc m1), (sc m2), (sc m3).
  assert (P1 : 0 <= m1) by (apply column_mean_nonneg; [exact Hne|apply Hpos]).
  assert (P2 : 0 <= m2) by (apply column_mean_nonneg; [exact Hne|apply Hpos]).
  assert (P3 : 0 <= m3) by (apply column_mean_nonneg; [exact Hne|apply Hpos]).
  assert (U1 : m1 <= M)
    by (unfold M; eapply Rle_trans; [apply (Rmax_l m1 m2)|apply Rmax_l]).
  assert (U2 : m2 <= M)
    by (unfold M; eapply Rle_trans; [apply (Rmax_r m1 m2)|apply Rmax_l]).
  assert (U3 : m3 <= M) by (unfold M; apply Rmax_r).
  assert (Q : forall m, 0 <= m <= M -> 0 <= m / M <= 1).
  { intros m [Hm0 HmM]. split.
    - apply Rmult_le_pos; [exact Hm0|]. apply Rlt_le, Rinv_0_lt_compat. exact HM.
    - apply (Rmult_le_reg_r M); [exact HM|].
      replace (m / M * M) with m by (field; lra). lra. }
  assert (R60 : Rround 60 2 = 60) by (rewrite (Rround_2_hundredths 6000); lra).
  assert (R100 : Rround 100 2 = 100) by (rewrite (Rround_2_hundredths 10000); lra).
  assert (B : forall m, 0 <= m <= M -> 60 <= sc m <= 100).
  { intros m Hm. specialize (Q m Hm). unfold sc. split.
    - rewrite <- R60. apply Rround_2_mono. lra.
    - rewrite <- R100. apply Rround_2_mono. lra. }
  assert (O : forall m m', m <= m' -> sc m' <= sc m).
  { intros m m' Hmm. unfold sc. apply Rround_2_mono.
    assert (m / M <= m' / M).
    { unfold Rdiv. apply Rmult_le_compat_r; [|exact Hmm].
      apply Rlt_le, Rinv_0_lt_compat. exact HM. }
    lra. }
  split; [apply zone_scores_formula; [exact Hne|fold n m1 m2 m3 M; lra]|].
  split.
  - intros ms [<-|[<-|[<-|[]]]]; cbn [snd]; apply B; lra.
  - intros a b Ha Hb Hab.
    destruct Ha as [<-|[<-|[<-|[]]]]; destruct Hb as [<-|[<-|[<-|[]]]];
      cbn [fst snd] in *; apply O; exact Hab.
Qed.

Lemma zone_scores_range_and_order_witness :
  rows (load_and_preprocess zone_example_csv) <> [] /\
  exists s1 s2 s3 : R,
    zone_scores (load_and_preprocess zone_example_csv) =
      [("Zone1", Fin s1); ("Zone2", Fin s2); ("Zone3", Fin s3)] /\
    60 <= s2 <= 100.
Proof.
  assert (Hne : rows (load_and_preprocess zone_example_csv) <> []) by discriminate.
  split; [exact Hne|].
  destruct (zone_scores_range_and_order (load_and_preprocess zone_example_csv) Hne)
    as [s1 [s2 [s3 [E [B _]]]]].
  - intros r [<-|[]]. cbn. lra.
  - change (0 < Rmax (Rmax ((100 + 0) / 1) ((80 + 0) / 1)) ((50 + 0) / 1)).
    eapply Rlt_le_trans; [|apply Rmax_r]. lra.
  - exists s1, s2, s3. split; [exact E|].
    refine (B (_, s2) _). right. left. reflexivity.
Defined.

(** ** Frames without rows, files without one of the two periods *)



Lemma fgt_NaN_l (a : float) : fgt NaN a = false.
Proof. destruct a; reflexivity. Qed.

Lemma fmul_NaN_l (a : float) : fmul NaN a = NaN.
Proof. destruct a; reflexivity. Qed.

(** X15. When the frame has no Peak row, or no Off-Peak row, the mean of that
    period does not exist and [demand_balancing] never recommends shifting
    load: it prints its heading and, if there are more than 4 high-risk hours,
    the stagger line. *)
Theorem no_shift_without_both_periods (df : frame) (high_risk : list (Z * R)) :
  filter (fun r => String.eqb (Peak_Type r) "Peak") (rows df) = [] \/
  filter (fun r => String.eqb (Peak_Type r) "Off-Peak") (rows df) = [] ->
  demand_balancing df high_risk =
    balancing_header
    :: (if (4 <? List.length high_risk)%nat then [Line stagger_msg] else []) /\
  ~ In (Line shift_msg) (demand_balancing df high_risk).
Proof.
  intros H.
  assert (F : fgt (peak_mean df) (fmul (off_peak_mean df) (Fin (115 / 100))) = false).
  { unfold peak_mean, off_peak_mean. destruct H as [-> | ->]; cbn [map mean].
    - apply fgt_NaN_l.
    - rewrite fmul_NaN_l. apply fgt_NaN_r. }
  assert (D : demand_balancing df high_risk =
              balancing_header
              :: (if (4 <? List.length high_risk)%nat then [Line stagger_msg] else [])).
  { unfold demand_balancing. rewrite F. reflexivity. }
  split; [exact D|]. rewrite D.
  destruct (4 <? List.length high_risk)%nat; simpl; intros Hin;
    repeat (destruct Hin as [Hin|Hin]; try discriminate Hin); contradiction.
Qed.

Lemma no_shift_without_both_periods_witness :
  demand_balancing (load_and_preprocess zone_example_csv) five_hours =
    [balancing_header; Line stagger_msg].
Proof.
  apply (no_shift_without_both_periods (load_and_preprocess zone_example_csv)
           five_hours).
  left. reflexivity.
Defined.

(** ** Sessions *)












(** X19. Entering the same choice twice in a row changes nothing the second
    time: the session is as after the first turn and the same lines are
    printed again.  In particular the columns written by choices 2 and 6 and
    the high-risk hours stored by choice 4 are recomputed to the same
    values. *)
Theorem repeating_a_choice (st st1 : Main.session) (choice : Z)
        (out1 : list printed) :
  Main.step st (Main.Entered choice) = Main.Continue st1 out1 ->
  Main.step st1 (Main.Entered choice) = Main.Continue st1 out1.
Proof.
  intros Hs. unfold Main.step in *.
  destruct (choice =? 1)%Z; [injection Hs as <- <-; reflexivity|].
  destruct (choice =? 2)%Z; [injection Hs as <- <-; reflexivity|].
  destruct (choice =? 3)%Z; [injection Hs as <- <-; reflexivity|].
  destruct (choice =? 4)%Z.
  { unfold peak_load_risk in *. cbn [fst snd] in *.
    injection Hs as <- <-. reflexivity. }
  destruct (choice =? 5)%Z; [injection Hs as <- <-; reflexivity|].
  destruct (choice =? 6)%Z; [injection Hs as <- <-; reflexivity|].
  destruct (choice =? 7)%Z.
  { destruct (Main.high_risk_hours st) eqn:Eh; injection Hs as <- <-;
      rewrite Eh; reflexivity. }
  destruct (choice =? 8)%Z; [discriminate Hs|].
  injection Hs as <- <-. reflexivity.
Qed.

Lemma repeating_a_choice_witness :
  exists (st1 : Main.session) (out1 : list printed),
    Main.step (fst (Main.start flat_csv)) (Main.Entered 6) = Main.Continue st1 out1 /\
    Main.step st1 (Main.Entered 6) = Main.Continue st1 out1.
Proof.
  eexists. eexists. split; [reflexivity|].
  apply (repeating_a_choice (fst (Main.start flat_csv))). reflexivity.
Defined.

(** ** A frame of constant load *)


